(** * MLOps tracking utilities: model and verification

    Shallow embedding of the metrics tracking code of the AI appointment
    setter:

    - [mlops-tracking] (full version: dynamic import of the database layer,
      [createAIMetrics], POST to [/track], POST to [/refresh-metrics]),
      module [Tracking];
    - the earlier version of the same file (POST to [/track] only),
      module [TrackingV1];
    - [lib/database.ts], [createAIMetrics], module [Database].

    JavaScript numbers are IEEE 754 binary64 values; they are modelled with
    the executable specification [SpecFloat] of the Standard Library
    ([prec = 53], [emax = 1024]).  Asynchronous calls are modelled by an
    environment that settles every awaited promise (fulfilled or rejected),
    and the program runs in a state-and-exception monad over a world made
    of the object store, the trace of external calls and the console. *)

From Stdlib Require Import ZArith List Ascii String Bool Lia.
From Stdlib Require Import QArith Qpower Qround Lqa.
From Stdlib Require Import Floats.SpecFloat.
From stdpp Require Import base strings gmap.
Import ListNotations.

Local Open Scope Z_scope.

(* ===================================================================== *)
(** ** JavaScript numbers *)
(* ===================================================================== *)

Module JSNumber.

Definition prec : Z := 53.
Definition emax : Z := 1024.

(** A JavaScript [Number]. *)
Definition number : Type := spec_float.

Definition mul : number -> number -> number := SFmul prec emax.
Definition div : number -> number -> number := SFdiv prec emax.
Definition add : number -> number -> number := SFadd prec emax.

(** The Number whose value is the integer [z] (exact for [|z| < 2^53],
    rounded to nearest even beyond). *)
Definition of_Z (z : Z) : number := binary_normalize prec emax z 0 false.

(** The Number nearest to [m * 2^e]. *)
Definition of_dyadic (m e : Z) : number := binary_normalize prec emax m e false.

Definition is_finite (x : number) : bool :=
  match x with
  | S754_zero _ | S754_finite _ _ _ => true
  | S754_infinity _ | S754_nan => false
  end.

(** 2^e as a rational, for any integer [e]. *)
Definition pow2 (e : Z) : Q := Qpower 2 e.

(** The rational [m * 2^e]. *)
Definition F2Q (m : positive) (e : Z) : Q := inject_Z (Zpos m) * pow2 e.

(** The exact rational value of a finite Number (0 for the others). *)
Definition to_Q (x : number) : Q :=
  match x with
  | S754_finite s m e => if s then Qopp (F2Q m e) else F2Q m e
  | _ => 0%Q
  end.

(** An integer as a Number, keeping the sign of [x] for a zero result
    ([Math.ceil(-0.5)] and [Math.round(-0.2)] are [-0]). *)
Definition integral (negative : bool) (z : Z) : number :=
  binary_normalize prec emax z 0 negative.

(** [Math.ceil]: the smallest integral Number not below [x]; NaN, zeros
    and infinities are returned unchanged. *)
Definition Math_ceil (x : number) : number :=
  match x with
  | S754_finite s m (Zneg k) =>
      let d := 2 ^ Zpos k in
      if s then integral true (- (Zpos m / d))
      else integral false (- ((- Zpos m) / d))
  | _ => x
  end.

(** [Math.round]: the integral Number closest to [x], ties towards
    +infinity, that is [floor (x + 1/2)] computed exactly. *)
Definition Math_round (x : number) : number :=
  match x with
  | S754_finite s m (Zneg k) =>
      let d := 2 ^ Zpos (Pos.succ k) in
      if s then integral true ((- (2 * Zpos m) + 2 ^ Zpos k) / d)
      else integral false ((2 * Zpos m + 2 ^ Zpos k) / d)
  | _ => x
  end.

End JSNumber.

Import JSNumber.

(** The unit roundoff of binary64, 2^-53. *)
Definition u64 : Q := 1 # 9007199254740992.

(** A binary64 mantissa in normal form: exactly 53 bits. *)
Definition normal53 (m : positive) : Prop := Zpos (digits2_pos m) = 53.

(** [rec] locates the non-negative rational [X]: its mantissa is the
    integer part of [X], and its round and sticky bits say where the rest
    lies with respect to one half.  This is what the shift-right records
    of [SpecFloat] mean. *)
Definition located (X : Q) (rec : shr_record) : Prop :=
  (0 <= shr_m rec)%Z
  /\ match shr_r rec, shr_s rec with
     | false, false => X == inject_Z (shr_m rec)
     | false, true =>
         inject_Z (shr_m rec) < X /\ X < inject_Z (shr_m rec) + (1 # 2)
     | true, false => X == inject_Z (shr_m rec) + (1 # 2)
     | true, true =>
         inject_Z (shr_m rec) + (1 # 2) < X /\ X < inject_Z (shr_m rec) + 1
     end%Q.

(* ===================================================================== *)
(** ** JavaScript strings *)
(* ===================================================================== *)

(** A JavaScript string is a sequence of UTF-16 code units; [s.length]
    counts code units. *)
Definition code_unit : Type := N.
Definition JsString : Type := list code_unit.

(** A string literal of the source (ASCII). *)
Definition lit (s : string) : JsString :=
  map N_of_ascii (list_ascii_of_string s).

(** [s.length] as a Number. *)
Definition js_length (s : JsString) : number :=
  of_Z (Z.of_nat (length s)).

(* ===================================================================== *)
(** ** Data model *)
(* ===================================================================== *)

(** [interface MetricsData]; an optional field is [None] when
    [undefined]. *)
Record MetricsData := {
  business_id : JsString;
  conversation_id : option JsString;
  session_id : JsString;
  response_time_ms : number;
  success_rate : number;
  user_satisfaction : option number;
  tokens_used : number;
  prompt_tokens : option number;
  completion_tokens : option number;
  api_cost_usd : number;
  model_name : JsString;
  intent_detected : JsString;
  appointment_requested : bool;
  human_handoff_requested : bool;
  appointment_booked : option bool;
  user_message_length : number;
  ai_response_length : number;
  response_type : JsString
}.

(** [interface AIMetrics] of [lib/database.ts]. *)
Record AIMetrics := {
  am_id : JsString;
  am_business_id : JsString;
  am_conversation_id : option JsString;
  am_session_id : JsString;
  am_response_time_ms : number;
  am_success_rate : number;
  am_tokens_used : number;
  am_prompt_tokens : option number;
  am_completion_tokens : option number;
  am_api_cost_usd : number;
  am_model_name : JsString;
  am_intent_detected : JsString;
  am_appointment_requested : bool;
  am_human_handoff_requested : bool;
  am_appointment_booked : option bool;
  am_user_message_length : number;
  am_ai_response_length : number;
  am_response_type : JsString;
  am_created_at : JsString
}.

(** [Omit<AIMetrics, "id" | "created_at">], the argument of
    [createAIMetrics]. *)
Record AIMetricsInput := {
  in_business_id : JsString;
  in_conversation_id : option JsString;
  in_session_id : JsString;
  in_response_time_ms : number;
  in_success_rate : number;
  in_tokens_used : number;
  in_prompt_tokens : option number;
  in_completion_tokens : option number;
  in_api_cost_usd : number;
  in_model_name : JsString;
  in_intent_detected : JsString;
  in_appointment_requested : bool;
  in_human_handoff_requested : bool;
  in_appointment_booked : option bool;
  in_user_message_length : number;
  in_ai_response_length : number;
  in_response_type : JsString
}.

(** A value interpolated into the [sql] tagged template. *)
Inductive SqlParam :=
| PString (s : JsString)
| PNumber (x : number)
| PBool (b : bool)
| PUndefined.

(** A JSON document. *)
#[warnings="-register-all"] Inductive Json :=
| JNull
| JBool (b : bool)
| JNumber (x : number)
| JString (s : JsString)
| JArray (items : list Json)
| JObject (fields : list (string * Json)).

(* ===================================================================== *)
(** ** Effects: errors, settled promises, the world *)
(* ===================================================================== *)

Inductive JsError :=
| ModuleNotFound                  (* the dynamic import is rejected *)
| TypeError                       (* property access on undefined or null *)
| DatabaseError (msg : JsString)  (* the sql call is rejected *)
| NetworkError                    (* fetch is rejected: no connection *)
| TimeoutError (ms : Z)           (* fetch is aborted by AbortSignal.timeout *)
| SyntaxError                     (* response.json() on a malformed body *)
| StatusError (status : Z)
    (* new Error(`MLOps service responded with status: ${status}`) *)
| OtherError (description : JsString).
    (* any other value thrown by the runtime or by a callee *)

(** An awaited promise, once settled. *)
Inductive Settled (A : Type) :=
| Fulfilled (a : A)
| Rejected (e : JsError).
Arguments Fulfilled {A} a.
Arguments Rejected {A} e.

(** The [init] argument of [fetch] together with its URL. *)
Record Request := {
  url : JsString;
  method : JsString;
  headers : list (JsString * JsString);
  body : option Json;        (* body: a JSON text, or [undefined] *)
  timeout_ms : option Z      (* signal: AbortSignal.timeout(ms) *)
}.

(** What the code reads of a [Response]. *)
Record Response := {
  status : Z;
  json : Settled Json        (* await response.json() *)
}.

(** [response.ok]: the status is in the range 200-299. *)
Definition ok (r : Response) : bool :=
  (200 <=? status r) && (status r <=? 299).

(** The external calls of one run, in the order they were made, each with
    the way it settled. *)
Inductive Event :=
| EvImport (r : Settled unit)
| EvSql (params : list SqlParam) (r : Settled (list AIMetrics))
| EvFetch (req : Request) (r : Settled Response).

(** An argument printed by [console.log] / [console.error]. *)
Inductive LogArg :=
| LogValue (v : option Json)
| LogErr (e : JsError).

Inductive LogEntry :=
| ConsoleLog (msg : JsString) (arg : LogArg)
| ConsoleError (msg : JsString) (arg : LogArg).

(** A reference to an object of the caller. *)
Definition addr : Type := positive.

Record World := {
  objects : gmap addr MetricsData;   (* the caller's records *)
  trace : list Event;                (* external calls made so far *)
  console : list LogEntry            (* console output so far *)
}.

(** The environment: how every external call settles, possibly depending
    on the calls made before it. *)
Record Env := {
  process_env : gmap string JsString;
  import_settles : list Event -> Settled unit;
  sql_settles : list Event -> list SqlParam -> Settled (list AIMetrics);
  fetch_settles : list Event -> Request -> Settled Response
}.

(** Completion of a piece of code: normal, or an exception in flight. *)
Inductive Completion (A : Type) :=
| Normal (a : A)
| Throw (e : JsError).
Arguments Normal {A} a.
Arguments Throw {A} e.

Definition M (A : Type) : Type := World -> Completion A * World.

#[global] Instance M_ret : MRet M := fun A a w => (Normal a, w).

#[global] Instance M_bind : MBind M := fun A B k c w =>
  match c w with
  | (Normal a, w') => k a w'
  | (Throw e, w') => (Throw e, w')
  end.

Definition throw {A} (e : JsError) : M A := fun w => (Throw e, w).

(** [try { body } catch (e) { handler e }] *)
Definition try_catch {A} (body : M A) (handler : JsError -> M A) : M A :=
  fun w =>
    match body w with
    | (Normal a, w') => (Normal a, w')
    | (Throw e, w') => handler e w'
    end.

(** [await p]: the promise settles; a rejection is thrown. *)
Definition await {A} (ev : Settled A -> Event) (p : list Event -> Settled A) : M A :=
  fun w =>
    let r := p (trace w) in
    let w' := {| objects := objects w;
                 trace := trace w ++ [ev r];
                 console := console w |} in
    match r with
    | Fulfilled a => (Normal a, w')
    | Rejected e => (Throw e, w')
    end.

Definition console_log (msg : JsString) (arg : LogArg) : M unit :=
  fun w => (Normal tt, {| objects := objects w;
                          trace := trace w;
                          console := console w ++ [ConsoleLog msg arg] |}).

Definition console_error (msg : JsString) (arg : LogArg) : M unit :=
  fun w => (Normal tt, {| objects := objects w;
                          trace := trace w;
                          console := console w ++ [ConsoleError msg arg] |}).

(** Reading the object behind a reference; the reference of a call such
    as [trackMetrics(undefined)] points to no object, and reading a
    property of it throws. *)
Definition deref (p : addr) : M MetricsData :=
  fun w =>
    match objects w !! p with
    | Some md => (Normal md, w)
    | None => (Throw TypeError, w)
    end.

(** The argument as a value, none of its properties read: the object
    behind the reference, or [undefined]. *)
Definition value_of (p : addr) : M (option MetricsData) :=
  fun w => (Normal (objects w !! p), w).

(** [a || b] on an optional string: [undefined] and the empty string are
    falsy. *)
Definition or_string (a : option JsString) (b : JsString) : JsString :=
  match a with
  | Some (c :: s) => c :: s
  | Some [] | None => b
  end.

(** [a || false] on an optional boolean. *)
Definition or_false (a : option bool) : bool :=
  match a with
  | Some true => true
  | Some false | None => false
  end.

(** [result.status]: reading a property of a parsed JSON value throws on
    [null] and yields [undefined] where the property is missing. *)
Fixpoint assoc (k : string) (fields : list (string * Json)) : option Json :=
  match fields with
  | [] => None
  | (k', v) :: rest => if String.eqb k k' then Some v else assoc k rest
  end.

Definition get_property (v : Json) (k : string) : M (option Json) :=
  match v with
  | JNull => throw TypeError
  | JObject fields => mret (assoc k fields)
  | _ => mret None
  end.

(** [JSON.stringify]: a property whose value is [undefined] is left out;
    a Number that is not finite is written [null], and a zero of either
    sign is written [0].  The properties are listed in the order of the
    interface. *)
Definition json_number (x : number) : Json :=
  match x with
  | S754_zero _ => JNumber (S754_zero false)
  | S754_finite _ _ _ => JNumber x
  | S754_infinity _ | S754_nan => JNull
  end.

Definition field {A} (k : string) (f : A -> Json) (v : option A)
  : list (string * Json) :=
  match v with
  | Some a => [(k, f a)]
  | None => []
  end.

Definition JSON_stringify (md : MetricsData) : Json :=
  JObject
    ([("business_id"%string, JString (business_id md))]
     ++ field "conversation_id" JString (conversation_id md)
     ++ [("session_id"%string, JString (session_id md));
         ("response_time_ms"%string, json_number (response_time_ms md));
         ("success_rate"%string, json_number (success_rate md))]
     ++ field "user_satisfaction" json_number (user_satisfaction md)
     ++ [("tokens_used"%string, json_number (tokens_used md))]
     ++ field "prompt_tokens" json_number (prompt_tokens md)
     ++ field "completion_tokens" json_number (completion_tokens md)
     ++ [("api_cost_usd"%string, json_number (api_cost_usd md));
         ("model_name"%string, JString (model_name md));
         ("intent_detected"%string, JString (intent_detected md));
         ("appointment_requested"%string, JBool (appointment_requested md));
         ("human_handoff_requested"%string, JBool (human_handoff_requested md))]
     ++ field "appointment_booked" JBool (appointment_booked md)
     ++ [("user_message_length"%string, json_number (user_message_length md));
         ("ai_response_length"%string, json_number (ai_response_length md));
         ("response_type"%string, JString (response_type md))]).

Definition param_string (v : option JsString) : SqlParam :=
  match v with Some s => PString s | None => PUndefined end.

Definition param_number (v : option number) : SqlParam :=
  match v with Some x => PNumber x | None => PUndefined end.

(* ===================================================================== *)
(** ** lib/database.ts *)
(* ===================================================================== *)

Module Database.

(** The columns of the INSERT statement, in order. *)
Definition insert_columns : list string :=
  [ "business_id"; "conversation_id"; "session_id";
    "response_time_ms"; "success_rate";
    "tokens_used"; "prompt_tokens"; "completion_tokens"; "api_cost_usd";
    "model_name";
    "intent_detected"; "appointment_requested"; "human_handoff_requested";
    "appointment_booked";
    "user_message_length"; "ai_response_length"; "response_type" ]%string.

(** The values interpolated into the INSERT statement, in order. *)
Definition insert_values (metrics : AIMetricsInput) : list SqlParam :=
  [ PString (in_business_id metrics);
    param_string (in_conversation_id metrics);
    PString (in_session_id metrics);
    PNumber (in_response_time_ms metrics);
    PNumber (in_success_rate metrics);
    PNumber (in_tokens_used metrics);
    param_number (in_prompt_tokens metrics);
    param_number (in_completion_tokens metrics);
    PNumber (in_api_cost_usd metrics);
    PString (in_model_name metrics);
    PString (in_intent_detected metrics);
    PBool (in_appointment_requested metrics);
    PBool (in_human_handoff_requested metrics);
    PBool (or_false (in_appointment_booked metrics));
    PNumber (in_user_message_length metrics);
    PNumber (in_ai_response_length metrics);
    PString (in_response_type metrics) ].

(** [createAIMetrics]: run the INSERT ... RETURNING * and return
    [result[0]] ([undefined] when no row comes back). *)
Definition createAIMetrics (env : Env) (metrics : AIMetricsInput)
  : M (option AIMetrics) :=
  result ← await (EvSql (insert_values metrics))
                 (fun tr => sql_settles env tr (insert_values metrics));
  mret (head result).

End Database.

(* ===================================================================== *)
(** ** The tracking utilities (full version) *)
(* ===================================================================== *)

(** [await fetch(url, init)] *)
Definition fetch (env : Env) (req : Request) : M Response :=
  await (EvFetch req) (fun tr => fetch_settles env tr req).

(** [await response.json()] *)
Definition response_json (r : Response) : M Json :=
  match json r with
  | Fulfilled v => mret v
  | Rejected e => throw e
  end.

(** [process.env.MLOPS_SERVICE_URL || 'http://localhost:5001'] *)
Definition mlopsServiceUrl (env : Env) : JsString :=
  or_string (process_env env !! "MLOPS_SERVICE_URL"%string)
            (lit "http://localhost:5001").

Module Tracking.

(** The object literal passed to [createAIMetrics]. *)
Definition metrics_input (md : MetricsData) : AIMetricsInput :=
  {| in_business_id := business_id md;
     in_conversation_id := conversation_id md;
     in_session_id := session_id md;
     in_response_time_ms := response_time_ms md;
     in_success_rate := success_rate md;
     in_tokens_used := tokens_used md;
     in_prompt_tokens := prompt_tokens md;
     in_completion_tokens := completion_tokens md;
     in_api_cost_usd := api_cost_usd md;
     in_model_name := model_name md;
     in_intent_detected := intent_detected md;
     in_appointment_requested := appointment_requested md;
     in_human_handoff_requested := human_handoff_requested md;
     in_appointment_booked := appointment_booked md;
     in_user_message_length := user_message_length md;
     in_ai_response_length := ai_response_length md;
     in_response_type := response_type md |}.

(** The request of the publish step. *)
Definition track_request (env : Env) (md : MetricsData) : Request :=
  {| url := mlopsServiceUrl env ++ lit "/track";
     method := lit "POST";
     headers := [(lit "Content-Type", lit "application/json")];
     body := Some (JSON_stringify md);
     timeout_ms := Some 5000 |}.

(** The request of the refresh step. *)
Definition refresh_request (env : Env) : Request :=
  {| url := mlopsServiceUrl env ++ lit "/refresh-metrics";
     method := lit "POST";
     headers := [(lit "Content-Type", lit "application/json")];
     body := Some (JObject [("trigger"%string, JString (lit "new_metrics"))]);
     timeout_ms := Some 3000 |}.

Definition trackMetrics (env : Env) (metricsData : addr) : M unit :=
  try_catch
    (await EvImport (import_settles env);;
     md ← deref metricsData;
     Database.createAIMetrics env (metrics_input md);;
     md' ← deref metricsData;
     response ← fetch env (track_request env md');
     if negb (ok response) then throw (StatusError (status response))
     else
       result ← response_json response;
       st ← get_property result "status";
       console_log (lit "Metrics tracked successfully:") (LogValue st);;
       try_catch
         (fetch env (refresh_request env);; mret tt)
         (fun refreshError =>
            console_log (lit "Metrics refresh skipped:") (LogErr refreshError)))
    (fun error =>
       console_error (lit "Error tracking metrics:") (LogErr error)).

Record TokenUsage := {
  totalTokens : number;
  systemTokens : number;
  userTokens : number;
  responseTokens : number
}.

Definition CHARS_PER_TOKEN : number := of_Z 4.

Definition calculateTokenUsage (systemPrompt userMessage aiResponse : JsString)
  : TokenUsage :=
  let systemTokens := Math_ceil (div (js_length systemPrompt) CHARS_PER_TOKEN) in
  let userTokens := Math_ceil (div (js_length userMessage) CHARS_PER_TOKEN) in
  let responseTokens := Math_ceil (div (js_length aiResponse) CHARS_PER_TOKEN) in
  let totalTokens := add (add systemTokens userTokens) responseTokens in
  {| totalTokens := totalTokens;
     systemTokens := systemTokens;
     userTokens := userTokens;
     responseTokens := responseTokens |}.

(** The literal [0.1875], which is 3 * 2^-4. *)
Definition COST_PER_MILLION_TOKENS : number := of_dyadic 3 (-4).

Definition estimateApiCost (totalTokens : number) : number :=
  let costUsd := mul (div totalTokens (of_Z 1000000)) COST_PER_MILLION_TOKENS in
  div (Math_round (mul costUsd (of_Z 1000000))) (of_Z 1000000).

End Tracking.

(* ===================================================================== *)
(** ** The tracking utilities (first version: publish only) *)
(* ===================================================================== *)

Module TrackingV1.

(** The request of the publish step: no [signal], hence no timeout.  The
    argument is serialized as it is, no property of it is read first:
    [JSON.stringify(undefined)] is [undefined], and the request then has
    no body. *)
Definition track_request (env : Env) (metricsData : option MetricsData)
  : Request :=
  {| url := mlopsServiceUrl env ++ lit "/track";
     method := lit "POST";
     headers := [(lit "Content-Type", lit "application/json")];
     body := JSON_stringify <$> metricsData;
     timeout_ms := None |}.

Definition trackMetrics (env : Env) (metricsData : addr) : M unit :=
  try_catch
    (md ← value_of metricsData;
     response ← fetch env (track_request env md);
     if negb (ok response) then throw (StatusError (status response))
     else
       result ← response_json response;
       st ← get_property result "status";
       console_log (lit "Metrics tracked successfully:") (LogValue st))
    (fun error =>
       console_error (lit "Error tracking metrics:") (LogErr error)).

(** [calculateTokenUsage] and [estimateApiCost] are the same text in both
    versions. *)
Definition calculateTokenUsage := Tracking.calculateTokenUsage.
Definition estimateApiCost := Tracking.estimateApiCost.

End TrackingV1.

(* ===================================================================== *)
(** ** Observing a run *)
(* ===================================================================== *)

(** The three steps of the reporter. *)
Inductive Step := Persist | Publish | Refresh.

#[global] Instance Step_eq_dec : EqDecision Step.
Proof. solve_decision. Defined.

(** The step an external call belongs to: the INSERT is the persist step,
    a fetch of [base/track] the publish step, a fetch of
    [base/refresh-metrics] the refresh step. *)
Definition step_of (env : Env) (ev : Event) : option Step :=
  match ev with
  | EvImport _ => None
  | EvSql _ _ => Some Persist
  | EvFetch req _ =>
      if decide (url req = mlopsServiceUrl env ++ lit "/track")
      then Some Publish
      else if decide (url req = mlopsServiceUrl env ++ lit "/refresh-metrics")
           then Some Refresh
           else None
  end.

Definition steps (env : Env) (tr : list Event) : list Step :=
  omap (step_of env) tr.

(** A step was attempted: the call was made, however it settled. *)
Definition attempted (env : Env) (s : Step) (tr : list Event) : Prop :=
  s ∈ steps env tr.

(** The persist step failed: the INSERT was rejected. *)
Definition persist_failed (tr : list Event) : Prop :=
  ∃ params e, EvSql params (Rejected e) ∈ tr.

(** A fetch settled the way the publish step accepts: fulfilled with a
    2xx status. *)
Definition fetch_succeeded (r : Settled Response) : bool :=
  match r with
  | Fulfilled resp => ok resp
  | Rejected _ => false
  end.

Definition is_console_error (l : LogEntry) : bool :=
  match l with ConsoleError _ _ => true | ConsoleLog _ _ => false end.

Definition is_refresh_call (env : Env) (ev : Event) : bool :=
  match step_of env ev with
  | Some Refresh => true
  | _ => false
  end.

(** The events of the persist and publish steps (everything but the
    refresh call). *)
Definition before_refresh (env : Env) (tr : list Event) : list Event :=
  List.filter (fun ev => negb (is_refresh_call env ev)) tr.

(** The environment [env] where the refresh call settles as [o] says. *)
Definition with_refresh (env : Env) (o : list Event -> Settled Response) : Env :=
  {| process_env := process_env env;
     import_settles := import_settles env;
     sql_settles := sql_settles env;
     fetch_settles := fun tr req =>
       if decide (url req = mlopsServiceUrl env ++ lit "/refresh-metrics")
       then o tr
       else fetch_settles env tr req |}.

Fixpoint column_value (c : string) (cols : list string) (vals : list SqlParam)
  : option SqlParam :=
  match cols, vals with
  | c' :: cols', v :: vals' =>
      if String.eqb c c' then Some v else column_value c cols' vals'
  | _, _ => None
  end.

(** The value stored in a column by the INSERT of [createAIMetrics]. *)
Definition inserted (c : string) (metrics : AIMetricsInput) : option SqlParam :=
  column_value c Database.insert_columns (Database.insert_values metrics).

(* ===================================================================== *)
(** ** Concrete records and environments *)
(* ===================================================================== *)

Definition md0 : MetricsData :=
  {| business_id := lit "biz-1";
     conversation_id := None;
     session_id := lit "sess-1";
     response_time_ms := of_Z 120;
     success_rate := of_Z 1;
     user_satisfaction := None;
     tokens_used := of_Z 216;
     prompt_tokens := None;
     completion_tokens := None;
     api_cost_usd := of_Z 0;
     model_name := lit "gemini-1.5-flash";
     intent_detected := lit "booking";
     appointment_requested := true;
     human_handoff_requested := false;
     appointment_booked := None;
     user_message_length := of_Z 5;
     ai_response_length := of_Z 9;
     response_type := lit "text" |}.

Definition ok_response : Response :=
  {| status := 200;
     json := Fulfilled (JObject [("status"%string, JString (lit "success"))]) |}.

(** Everything works, and [MLOPS_SERVICE_URL] is not set. *)
Definition env_ok : Env :=
  {| process_env := ∅;
     import_settles := fun _ => Fulfilled tt;
     sql_settles := fun _ _ => Fulfilled [];
     fetch_settles := fun _ _ => Fulfilled ok_response |}.

(** The database rejects the INSERT; the monitoring service works. *)
Definition env_db_down : Env :=
  {| process_env := ∅;
     import_settles := fun _ => Fulfilled tt;
     sql_settles := fun _ _ => Rejected (DatabaseError (lit "connection refused"));
     fetch_settles := fun _ _ => Fulfilled ok_response |}.

(** [MLOPS_SERVICE_URL] is set to the empty string. *)
Definition env_blank_url : Env :=
  {| process_env := {[ "MLOPS_SERVICE_URL"%string := [] ]};
     import_settles := fun _ => Fulfilled tt;
     sql_settles := fun _ _ => Fulfilled [];
     fetch_settles := fun _ _ => Fulfilled ok_response |}.

(** [MLOPS_SERVICE_URL] is set to a host. *)
Definition env_custom_url : Env :=
  {| process_env := {[ "MLOPS_SERVICE_URL"%string := lit "http://mlops:8080" ]};
     import_settles := fun _ => Fulfilled tt;
     sql_settles := fun _ _ => Fulfilled [];
     fetch_settles := fun _ _ => Fulfilled ok_response |}.

(** The monitoring service answers 503. *)
Definition env_503 : Env :=
  {| process_env := ∅;
     import_settles := fun _ => Fulfilled tt;
     sql_settles := fun _ _ => Fulfilled [];
     fetch_settles := fun _ _ =>
       Fulfilled {| status := 503; json := Rejected SyntaxError |} |}.

(** The caller holds [md0] at address 1. *)
Definition w0 : World :=
  {| objects := {[ 1%positive := md0 ]}; trace := []; console := [] |}.

(** The external calls and the console lines one run adds. *)
Definition new_events {A} (c : M A) (w : World) : list Event :=
  drop (length (trace w)) (trace (c w).2).

Definition new_console {A} (c : M A) (w : World) : list LogEntry :=
  drop (length (console w)) (console (c w).2).

(** A computation that leaves the caller's objects as they are. *)
Definition preserves_objects {A} (c : M A) : Prop :=
  ∀ w, objects (c w).2 = objects w.

(** A computation that completes normally from every world. *)
Definition never_throws {A} (c : M A) : Prop :=
  ∀ w, ∃ a, (c w).1 = Normal a.

(** The object literal [trackMetrics] builds from [md0]. *)
Definition input0 : AIMetricsInput := Tracking.metrics_input md0.

(* ===================================================================== *)
(** ** What the estimators are meant to compute *)
(* ===================================================================== *)

(** The least integer [k] with [n <= 4 * k]: the ceiling of [n / 4]. *)
Definition ceil4 (n : Z) : Z := (n + 3) / 4.

(** The exact cost of [t] tokens in dollars, [t / 1_000_000 * 0.1875]. *)
Definition exact_cost (t : Z) : Q :=
  inject_Z t / 1000000 * (1875 # 10000).

(** The intermediate value [costUsd] of [estimateApiCost]. *)
Definition costUsd_of (totalTokens : number) : number :=
  mul (div totalTokens (of_Z 1000000)) Tracking.COST_PER_MILLION_TOKENS.

(** Rounding to 6 decimal places: the number of millionths nearest to
    [q], a tie going upwards as [Math.round] does. *)
Definition round6 (q : Q) : Z := Qfloor (q * 1000000 + (1 # 2)).

(** The Number written [k] millionths: the one nearest to [k / 10^6]. *)
Definition decimal6 (k : Z) : number := div (of_Z k) (of_Z 1000000).

(** The length of a string as an integer. *)
Definition len (s : JsString) : Z := Z.of_nat (length s).

(* ===================================================================== *)
(** ** More observations of a run *)
(* ===================================================================== *)

(** [v.k] for a parsed JSON value [v] other than [null]: the property of
    an object, [undefined] for anything else. *)
Definition json_property (v : Json) (k : string) : option Json :=
  match v with
  | JObject fields => assoc k fields
  | _ => None
  end.

(** The record [md] with its [user_satisfaction] replaced. *)
Definition with_user_satisfaction (v : option number) (md : MetricsData)
  : MetricsData :=
  {| business_id := business_id md;
     conversation_id := conversation_id md;
     session_id := session_id md;
     response_time_ms := response_time_ms md;
     success_rate := success_rate md;
     user_satisfaction := v;
     tokens_used := tokens_used md;
     prompt_tokens := prompt_tokens md;
     completion_tokens := completion_tokens md;
     api_cost_usd := api_cost_usd md;
     model_name := model_name md;
     intent_detected := intent_detected md;
     appointment_requested := appointment_requested md;
     human_handoff_requested := human_handoff_requested md;
     appointment_booked := appointment_booked md;
     user_message_length := user_message_length md;
     ai_response_length := ai_response_length md;
     response_type := response_type md |}.

(** The properties of a serialized record. *)
Definition body_fields (j : option Json) : list (string * Json) :=
  match j with
  | Some (JObject fields) => fields
  | _ => []
  end.

(** The console lines of [trackMetrics]. *)
Definition error_line (e : JsError) : LogEntry :=
  ConsoleError (lit "Error tracking metrics:") (LogErr e).

Definition success_line (st : option Json) : LogEntry :=
  ConsoleLog (lit "Metrics tracked successfully:") (LogValue st).

Definition skipped_line (e : JsError) : LogEntry :=
  ConsoleLog (lit "Metrics refresh skipped:") (LogErr e).

(** The monitoring service answers 200 with a body that is not JSON. *)
Definition env_bad_body : Env :=
  {| process_env := ∅;
     import_settles := fun _ => Fulfilled tt;
     sql_settles := fun _ _ => Fulfilled [];
     fetch_settles := fun _ _ =>
       Fulfilled {| status := 200; json := Rejected SyntaxError |} |}.

(** The monitoring service cannot be reached. *)
Definition env_offline : Env :=
  {| process_env := ∅;
     import_settles := fun _ => Fulfilled tt;
     sql_settles := fun _ _ => Fulfilled [];
     fetch_settles := fun _ _ => Rejected (TimeoutError 5000) |}.

(** The database module cannot be loaded. *)
Definition env_no_module : Env :=
  {| process_env := ∅;
     import_settles := fun _ => Rejected ModuleNotFound;
     sql_settles := fun _ _ => Fulfilled [];
     fetch_settles := fun _ _ => Fulfilled ok_response |}.

(** The caller holds no record at address 1. *)
Definition w_empty : World :=
  {| objects := ∅; trace := []; console := [] |}.

(* ===================================================================== *)
(** ** The start script of the monitoring service *)
(* ===================================================================== *)

Module StartScript.

(** The commands the script runs, apart from [echo]. *)
Inductive Command :=
| CreateVenv      (* python3 -m venv venv *)
| Activate        (* source venv/bin/activate *)
| PipInstall      (* pip install -r requirements.txt *)
| MkdirMetrics    (* mkdir -p metrics *)
| RunApp.         (* python app.py *)

#[global] Instance Command_eq_dec : EqDecision Command.
Proof. solve_decision. Defined.

(** What an observer of the script sees, in order. *)
Inductive Action :=
| Echo (line : string)
| Run (c : Command).

(** How sourcing a file ends: it returns to the script with a status
    (1 for a file that cannot be read), or it ends the shell: the file
    calls [exit], or the shell is in POSIX mode and the file is
    missing. *)
Inductive Sourced :=
| Returned (status : Z)
| Exited (status : Z).

(** The machine the script runs on: the two tests it makes and the exit
    status of each command, should it be run. *)
Record Host := {
  has_python3 : bool;        (* command -v python3 *)
  has_venv_dir : bool;       (* [ -d "venv" ] *)
  venv_status : Z;
  activate_ends : Sourced;
  pip_status : Z;
  mkdir_status : Z;
  app_status : Z
}.

(** A script either goes on, with the status of its last command, or
    has exited. *)
Inductive Flow (A : Type) :=
| Next (a : A)
| Exit (status : Z).

Arguments Next {A} a.
Arguments Exit {A} status.

Definition Sh (A : Type) : Type := list Action -> Flow A * list Action.

#[global] Instance Sh_ret : MRet Sh := fun A a tr => (Next a, tr).

#[global] Instance Sh_bind : MBind Sh := fun A B k c tr =>
  match c tr with
  | (Next a, tr') => k a tr'
  | (Exit n, tr') => (Exit n, tr')
  end.

(** [echo line]; its status is 0. *)
Definition echo (line : string) : Sh Z :=
  fun tr => (Next 0, tr ++ [Echo line]).

(** [exit n]. *)
Definition exit {A} (n : Z) : Sh A := fun tr => (Exit n, tr).

(** Running a command: the script has no [set -e], a status other than 0
    does not stop it. *)
Definition run (h : Host) (c : Command) : Sh Z :=
  fun tr =>
    let tr' := tr ++ [Run c] in
    match c with
    | CreateVenv => (Next (venv_status h), tr')
    | Activate =>
        match activate_ends h with
        | Returned n => (Next n, tr')
        | Exited n => (Exit n, tr')
        end
    | PipInstall => (Next (pip_status h), tr')
    | MkdirMetrics => (Next (mkdir_status h), tr')
    | RunApp => (Next (app_status h), tr')
    end.

(** [if cond; then body; fi]: status 0 when the condition fails. *)
Definition when (cond : bool) (body : Sh Z) : Sh Z :=
  if cond then body else mret 0.

Definition start (h : Host) : Sh Z :=
  echo "🚀 Starting MLOps Service for AI Appointment Setter";;
  echo "==================================================";;
  when (negb (has_python3 h))
    (echo "❌ Python 3 is not installed. Please install Python 3.8 or higher.";;
     exit 1);;
  when (negb (has_venv_dir h))
    (echo "📦 Creating Python virtual environment...";;
     run h CreateVenv);;
  echo "🔧 Activating virtual environment...";;
  run h Activate;;
  echo "📚 Installing Python dependencies...";;
  run h PipInstall;;
  run h MkdirMetrics;;
  echo "✅ Setup complete!";;
  echo "🌐 Service will be available at: http://localhost:5001";;
  echo "Starting Flask application...";;
  run h RunApp.

(** The script run from an empty terminal: what was seen and the exit
    status of the shell, that of the last command when the script runs
    to its end. *)
Definition execute (h : Host) : list Action * Z :=
  match start h [] with
  | (Next st, tr) => (tr, st)
  | (Exit st, tr) => (tr, st)
  end.

(** The commands run, without the lines printed. *)
Definition commands (tr : list Action) : list Command :=
  omap (fun a => match a with Run c => Some c | Echo _ => None end) tr.

(** The set-up steps between the checks and the application. *)
Definition setup (h : Host) : list Command :=
  (if has_venv_dir h then [] else [CreateVenv])
  ++ [Activate; PipInstall; MkdirMetrics].

(** A machine with Python and no virtual environment yet, on which
    installing the dependencies fails. *)
Definition fresh_host : Host :=
  {| has_python3 := true; has_venv_dir := false;
     venv_status := 0; activate_ends := Returned 0;
     pip_status := 1; mkdir_status := 0; app_status := 0 |}.

(** A machine without Python. *)
Definition bare_host : Host :=
  {| has_python3 := false; has_venv_dir := false;
     venv_status := 127; activate_ends := Returned 1;
     pip_status := 127; mkdir_status := 0; app_status := 127 |}.

End StartScript.

(* ===================================================================== *)
(** ** The monad: frame and completion rules *)
(* ===================================================================== *)

Section MonadRules.
Context {A B : Type}.

Lemma preserves_mret (a : A) : preserves_objects (mret a : M A).
Proof. intros w. reflexivity. Qed.

Lemma preserves_throw (e : JsError) : preserves_objects (throw e : M A).
Proof. intros w. reflexivity. Qed.

Lemma preserves_bind (c : M A) (k : A -> M B) :
  preserves_objects c -> (∀ a, preserves_objects (k a)) ->
  preserves_objects (c ≫= k).
Proof.
  intros Hc Hk w. unfold mbind, M_bind.
  specialize (Hc w). destruct (c w) as [[a|e] w']; simpl in *.
  - rewrite Hk. exact Hc.
  - exact Hc.
Qed.

Lemma preserves_try_catch (c : M A) (h : JsError -> M A) :
  preserves_objects c -> (∀ e, preserves_objects (h e)) ->
  preserves_objects (try_catch c h).
Proof.
  intros Hc Hh w. unfold try_catch.
  specialize (Hc w). destruct (c w) as [[a|e] w']; simpl in *.
  - exact Hc.
  - rewrite Hh. exact Hc.
Qed.

Lemma preserves_await (ev : Settled A -> Event) (p : list Event -> Settled A) :
  preserves_objects (await ev p).
Proof. intros w. unfold await. destruct (p (trace w)); reflexivity. Qed.

Lemma try_catch_never_throws (c : M A) (h : JsError -> M A) :
  (∀ e, never_throws (h e)) -> never_throws (try_catch c h).
Proof.
  intros Hh w. unfold try_catch.
  destruct (c w) as [[a|e] w'].
  - exists a. reflexivity.
  - apply Hh.
Qed.

End MonadRules.

Lemma preserves_console_log msg arg : preserves_objects (console_log msg arg).
Proof. intros w. reflexivity. Qed.

Lemma preserves_console_error msg arg : preserves_objects (console_error msg arg).
Proof. intros w. reflexivity. Qed.

Lemma preserves_deref p : preserves_objects (deref p).
Proof. intros w. unfold deref. destruct (objects w !! p); reflexivity. Qed.

Lemma preserves_value_of p : preserves_objects (value_of p).
Proof. intros w. reflexivity. Qed.

Lemma preserves_fetch env req : preserves_objects (fetch env req).
Proof. apply preserves_await. Qed.

Lemma preserves_response_json r : preserves_objects (response_json r).
Proof.
  unfold response_json. destruct (json r).
  - apply preserves_mret.
  - apply preserves_throw.
Qed.

Lemma preserves_get_property v k : preserves_objects (get_property v k).
Proof.
  destruct v; simpl; first [apply preserves_mret | apply preserves_throw].
Qed.

Lemma preserves_createAIMetrics env metrics :
  preserves_objects (Database.createAIMetrics env metrics).
Proof.
  unfold Database.createAIMetrics.
  apply preserves_bind; [apply preserves_await | intros; apply preserves_mret].
Qed.

Create HintDb frame.
#[local] Hint Resolve preserves_mret preserves_throw preserves_await
  preserves_console_log preserves_console_error preserves_deref
  preserves_value_of
  preserves_fetch preserves_response_json preserves_get_property
  preserves_createAIMetrics : frame.

Ltac frame :=
  repeat lazymatch goal with
    | |- preserves_objects (try_catch _ _) =>
        apply preserves_try_catch; [| intros ?]
    | |- preserves_objects (mbind _ _) =>
        apply preserves_bind; [| intros ?]
    | |- preserves_objects (if ?b then _ else _) => destruct b
    | |- _ => solve [auto with frame]
    end.

Lemma console_error_never_throws msg arg : never_throws (console_error msg arg).
Proof. intros w. exists tt. reflexivity. Qed.

Lemma preserves_trackMetrics env p : preserves_objects (Tracking.trackMetrics env p).
Proof. unfold Tracking.trackMetrics. frame. Qed.

Lemma preserves_trackMetrics_v1 env p : preserves_objects (TrackingV1.trackMetrics env p).
Proof. unfold TrackingV1.trackMetrics. frame. Qed.

Lemma trackMetrics_total env p w :
  (Tracking.trackMetrics env p w).1 = Normal tt.
Proof.
  unfold Tracking.trackMetrics.
  match goal with
  | |- (try_catch ?c ?h w).1 = _ =>
      destruct (try_catch_never_throws c h
                  (fun e => console_error_never_throws _ _) w) as [[] H]
  end.
  exact H.
Qed.

Lemma trackMetrics_v1_total env p w :
  (TrackingV1.trackMetrics env p w).1 = Normal tt.
Proof.
  unfold TrackingV1.trackMetrics.
  match goal with
  | |- (try_catch ?c ?h w).1 = _ =>
      destruct (try_catch_never_throws c h
                  (fun e => console_error_never_throws _ _) w) as [[] H]
  end.
  exact H.
Qed.

(** C1.  For every record, every reference and every behaviour of the
    environment (the dynamic import, the INSERT, the publish call and the
    refresh call may each be fulfilled, be rejected with any error,
    time out, or answer with any status), [trackMetrics] completes
    normally: no exception reaches the caller.  This holds for both
    versions of the function. *)
Theorem trackMetrics_never_throws (env : Env) (metricsData : addr) (w : World) :
  (Tracking.trackMetrics env metricsData w).1 = Normal tt
  ∧ (TrackingV1.trackMetrics env metricsData w).1 = Normal tt.
Proof.
  split; [apply trackMetrics_total | apply trackMetrics_v1_total].
Qed.

(* ===================================================================== *)
(** ** Runs of [trackMetrics] *)
(* ===================================================================== *)

Ltac unfold_run :=
  cbv [Tracking.trackMetrics TrackingV1.trackMetrics try_catch mbind M_bind
       mret M_ret await deref value_of fetch Database.createAIMetrics
       response_json
       get_property console_log console_error throw].

Ltac simp_run := cbn [objects trace console fst snd negb].

(** One case analysis per external call, in program order. *)
Ltac case_call :=
  match goal with
  | |- context [match import_settles ?e ?t with _ => _ end] =>
      destruct (import_settles e t) as [[]|?] eqn:?
  | H : objects ?w !! ?p = _
    |- context [match objects ?w !! ?p with _ => _ end] => rewrite H
  | |- context [match objects ?w !! ?p with _ => _ end] =>
      destruct (objects w !! p) eqn:?
  | |- context [match sql_settles ?e ?t ?ps with _ => _ end] =>
      destruct (sql_settles e t ps) eqn:?
  | |- context [match fetch_settles ?e ?t ?r with _ => _ end] =>
      destruct (fetch_settles e t r) eqn:?
  | |- context [if negb (ok ?r) then _ else _] =>
      destruct (ok r) eqn:?
  | |- context [match json ?r with _ => _ end] =>
      destruct (json r) eqn:?
  | |- context [match ?v with JNull => _ | _ => _ end] =>
      is_var v; destruct v
  end; simp_run.

Ltac run := unfold new_events, new_console; unfold_run; simp_run; repeat case_call.

Lemma urls_differ (env : Env) :
  mlopsServiceUrl env ++ lit "/track"
  ≠ mlopsServiceUrl env ++ lit "/refresh-metrics".
Proof. intros H. apply app_inv_head in H. discriminate H. Qed.

Lemma step_of_track env md r :
  step_of env (EvFetch (Tracking.track_request env md) r) = Some Publish.
Proof. unfold step_of. simpl url. rewrite decide_True; reflexivity. Qed.

Lemma step_of_track_v1 env md r :
  step_of env (EvFetch (TrackingV1.track_request env md) r) = Some Publish.
Proof. unfold step_of. simpl url. rewrite decide_True; reflexivity. Qed.

Lemma step_of_refresh env r :
  step_of env (EvFetch (Tracking.refresh_request env) r) = Some Refresh.
Proof.
  unfold step_of. simpl url.
  rewrite decide_False by (intros H; symmetry in H; revert H; apply urls_differ).
  rewrite decide_True; reflexivity.
Qed.

Lemma steps_nil env : steps env [] = [].
Proof. reflexivity. Qed.

Lemma steps_cons env ev tr :
  steps env (ev :: tr)
  = match step_of env ev with
    | Some s => s :: steps env tr
    | None => steps env tr
    end.
Proof. reflexivity. Qed.

(** Normalising the trace a run leaves behind. *)
Ltac norm_trace :=
  rewrite <- ?app_assoc; cbn [app];
  rewrite ?drop_app_length, ?drop_all.

Lemma step_of_import env r : step_of env (EvImport r) = None.
Proof. reflexivity. Qed.

Lemma step_of_sql env params r : step_of env (EvSql params r) = Some Persist.
Proof. reflexivity. Qed.

Ltac norm_steps :=
  rewrite ?steps_cons, ?steps_nil, ?step_of_track, ?step_of_track_v1,
    ?step_of_refresh, ?step_of_import, ?step_of_sql.


Lemma not_elem_of_steps (s : Step) (l : list Step) :
  forallb (fun s' => negb (bool_decide (s = s'))) l = true -> s ∉ l.
Proof.
  induction l as [|s' l IH]; simpl; intros H Hin.
  - by apply elem_of_nil in Hin.
  - apply andb_prop in H as [H1 H2].
    apply elem_of_cons in Hin as [->|Hin].
    + by rewrite bool_decide_eq_true_2 in H1.
    + by apply IH.
Qed.

Ltac absent := apply not_elem_of_steps; reflexivity.

Lemma trace_grows env p w :
  trace (Tracking.trackMetrics env p w).2
  = trace w ++ new_events (Tracking.trackMetrics env p) w.
Proof. run; norm_trace; reflexivity. Qed.

(** C2, counterexample.  The claim says that the publish step is still
    attempted when the persistence step fails.  With the database down
    the run ends at the INSERT: the persist step failed and no request is
    sent to [/track]. *)
Lemma publish_skipped_when_database_down :
  persist_failed (new_events (Tracking.trackMetrics env_db_down 1%positive) w0)
  ∧ ¬ attempted env_db_down Publish
        (new_events (Tracking.trackMetrics env_db_down 1%positive) w0).
Proof.
  split.
  - eexists _, _. vm_compute. apply list_elem_of_further, list_elem_of_here.
  - unfold attempted. vm_compute. absent.
Qed.

(** C2, amended.  If the persistence step ([createAIMetrics]) fails, the
    failure is caught by the one handler around the whole body of
    [trackMetrics] and logged with [console.error]; the run consists of
    the import and the rejected INSERT only, neither the publish nor the
    refresh request is attempted, and [trackMetrics] completes
    normally. *)
Theorem persist_failure_ends_run (env : Env) (metricsData : addr) (w : World) :
  persist_failed (new_events (Tracking.trackMetrics env metricsData) w) ->
  (Tracking.trackMetrics env metricsData w).1 = Normal tt
  ∧ ¬ attempted env Publish (new_events (Tracking.trackMetrics env metricsData) w)
  ∧ ¬ attempted env Refresh (new_events (Tracking.trackMetrics env metricsData) w)
  ∧ ∃ params e,
      new_events (Tracking.trackMetrics env metricsData) w
      = [EvImport (Fulfilled tt); EvSql params (Rejected e)]
      ∧ new_console (Tracking.trackMetrics env metricsData) w
        = [ConsoleError (lit "Error tracking metrics:") (LogErr e)].
Proof.
  unfold persist_failed, attempted.
  run; norm_trace; norm_steps; intros (? & ? & Hin);
    repeat (apply elem_of_cons in Hin as [Hin|Hin]; [try discriminate Hin|]);
    try (by apply elem_of_nil in Hin).
  all: split; [reflexivity|]; split; [absent|]; split; [absent|].
  all: eexists _, _; split; reflexivity.
Qed.

Lemma persist_failure_ends_run_witness :
  (Tracking.trackMetrics env_db_down 1%positive w0).1 = Normal tt
  ∧ ¬ attempted env_db_down Publish
        (new_events (Tracking.trackMetrics env_db_down 1%positive) w0).
Proof.
  destruct (persist_failure_ends_run env_db_down 1%positive w0) as (H1 & H2 & _).
  - eexists _, _. vm_compute. apply list_elem_of_further, list_elem_of_here.
  - split; assumption.
Defined.

Ltac elim_in H :=
  repeat (apply elem_of_cons in H as [H|H]); [.. | by apply elem_of_nil in H].

(** C5.  Within one run of [trackMetrics] the steps attempted are an
    initial segment of persist, publish, refresh: persist precedes
    publish, which precedes refresh, and none is attempted twice.  A
    refresh call is attempted only right after a publish call that was
    fulfilled with a 2xx status, and never when the publish call was
    rejected (network error, timeout) or answered with another status. *)
Theorem steps_in_order (env : Env) (metricsData : addr) (w : World) :
  steps env (new_events (Tracking.trackMetrics env metricsData) w)
    `prefix_of` [Persist; Publish; Refresh]
  ∧ (attempted env Refresh (new_events (Tracking.trackMetrics env metricsData) w) ->
     ∃ before req resp req' r',
       new_events (Tracking.trackMetrics env metricsData) w
       = before ++ [EvFetch req (Fulfilled resp); EvFetch req' r']
       ∧ step_of env (EvFetch req (Fulfilled resp)) = Some Publish
       ∧ ok resp = true
       ∧ step_of env (EvFetch req' r') = Some Refresh
       ∧ ¬ attempted env Refresh before)
  ∧ (∀ req r,
       EvFetch req r ∈ new_events (Tracking.trackMetrics env metricsData) w ->
       step_of env (EvFetch req r) = Some Publish ->
       fetch_succeeded r = false ->
       ¬ attempted env Refresh
           (new_events (Tracking.trackMetrics env metricsData) w)).
Proof.
  unfold attempted.
  run; norm_trace; norm_steps.
  all: split; [by eexists|]; split.
  all: try (intros Hin; exfalso; revert Hin; absent).
  all: try (intros _; eexists [_; _], _, _, _, _;
            split; [reflexivity|];
            rewrite step_of_track, step_of_refresh;
            repeat split; auto; norm_steps; absent).
  all: try (intros; absent).
  all: intros req r Hin Hstep Hfail; exfalso; elim_in Hin.
  all: try (injection Hin as -> ->).
  all: try (subst; discriminate Hstep).
  all: try (simpl in Hfail; congruence).
  all: rewrite step_of_refresh in Hstep; discriminate Hstep.
Qed.

Lemma steps_in_order_witness :
  ∃ before req resp req' r',
    new_events (Tracking.trackMetrics env_ok 1%positive) w0
    = before ++ [EvFetch req (Fulfilled resp); EvFetch req' r']
    ∧ ok resp = true.
Proof.
  destruct (steps_in_order env_ok 1%positive w0) as (_ & H & _).
  destruct H as (before & req & resp & req' & r' & H1 & _ & H2 & _).
  - unfold attempted. vm_compute.
    apply list_elem_of_further, list_elem_of_further, list_elem_of_here.
  - exists before, req, resp, req', r'. split; assumption.
Defined.

(** The refresh call is the only one [with_refresh] touches. *)
Lemma fetch_with_refresh_track env o tr md :
  fetch_settles (with_refresh env o) tr (Tracking.track_request env md)
  = fetch_settles env tr (Tracking.track_request env md).
Proof.
  cbn [fetch_settles with_refresh]. simpl url.
  rewrite decide_False by apply urls_differ. reflexivity.
Qed.

Lemma fetch_with_refresh_refresh env o tr :
  fetch_settles (with_refresh env o) tr (Tracking.refresh_request env) = o tr.
Proof.
  cbn [fetch_settles with_refresh]. simpl url.
  rewrite decide_True; reflexivity.
Qed.

Ltac fold_env :=
  repeat match goal with
  | |- context [import_settles (with_refresh ?e ?o)] =>
      change (import_settles (with_refresh e o)) with (import_settles e)
  | |- context [sql_settles (with_refresh ?e ?o)] =>
      change (sql_settles (with_refresh e o)) with (sql_settles e)
  | |- context [Tracking.track_request (with_refresh ?e ?o)] =>
      change (Tracking.track_request (with_refresh e o))
        with (Tracking.track_request e)
  | |- context [Tracking.refresh_request (with_refresh ?e ?o)] =>
      change (Tracking.refresh_request (with_refresh e o))
        with (Tracking.refresh_request e)
  end.

Ltac case_call_refresh :=
  first
    [ rewrite !fetch_with_refresh_track
    | rewrite !fetch_with_refresh_refresh
    | case_call
    | match goal with
      | |- context [match ?o ?t with _ => _ end] =>
          is_var o; destruct (o t) eqn:?
      end ];
  simp_run.

Lemma before_refresh_cons env ev tr :
  before_refresh env (ev :: tr)
  = if is_refresh_call env ev then before_refresh env tr
    else ev :: before_refresh env tr.
Proof. unfold before_refresh. simpl. by destruct (is_refresh_call env ev). Qed.

Lemma is_refresh_call_import env r : is_refresh_call env (EvImport r) = false.
Proof. reflexivity. Qed.

Lemma is_refresh_call_sql env ps r : is_refresh_call env (EvSql ps r) = false.
Proof. reflexivity. Qed.

Lemma is_refresh_call_track env md r :
  is_refresh_call env (EvFetch (Tracking.track_request env md) r) = false.
Proof. unfold is_refresh_call. by rewrite step_of_track. Qed.

Lemma is_refresh_call_refresh env r :
  is_refresh_call env (EvFetch (Tracking.refresh_request env) r) = true.
Proof. unfold is_refresh_call. by rewrite step_of_refresh. Qed.

Ltac norm_before :=
  rewrite ?before_refresh_cons, ?is_refresh_call_import, ?is_refresh_call_sql,
    ?is_refresh_call_track, ?is_refresh_call_refresh.

(** C6.  However the refresh call settles (fulfilled with any status,
    rejected, timed out), [trackMetrics] completes normally, the persist
    and publish calls and their outcomes are the same, the same lines are
    printed with [console.error] (a refresh failure is only printed with
    [console.log] by the inner handler), and the objects of the caller
    are the same: two runs that differ only in the outcome of the refresh
    call agree on all of these. *)
Theorem refresh_failure_is_isolated
  (env : Env) (o1 o2 : list Event -> Settled Response)
  (metricsData : addr) (w : World) :
  (Tracking.trackMetrics (with_refresh env o1) metricsData w).1 = Normal tt
  ∧ (Tracking.trackMetrics (with_refresh env o2) metricsData w).1 = Normal tt
  ∧ before_refresh env
      (new_events (Tracking.trackMetrics (with_refresh env o1) metricsData) w)
    = before_refresh env
        (new_events (Tracking.trackMetrics (with_refresh env o2) metricsData) w)
  ∧ List.filter is_console_error
      (new_console (Tracking.trackMetrics (with_refresh env o1) metricsData) w)
    = List.filter is_console_error
        (new_console (Tracking.trackMetrics (with_refresh env o2) metricsData) w)
  ∧ objects (Tracking.trackMetrics (with_refresh env o1) metricsData w).2
    = objects (Tracking.trackMetrics (with_refresh env o2) metricsData w).2.
Proof.
  unfold new_events, new_console. unfold_run. fold_env.
  simp_run.
  repeat case_call_refresh.
  all: norm_trace; norm_before; rewrite <- ?app_assoc, ?drop_app_length, ?drop_all.
  all: repeat split; reflexivity.
Qed.

(** Every environment is of the form [with_refresh]: overriding the
    refresh call with the environment's own answer changes nothing. *)
Lemma with_refresh_self env p w :
  Tracking.trackMetrics
    (with_refresh env (fun tr => fetch_settles env tr (Tracking.refresh_request env)))
    p w
  = Tracking.trackMetrics env p w.
Proof.
  unfold_run. fold_env.
  simp_run.
  repeat case_call_refresh; try reflexivity; congruence.
Qed.

(** C7, counterexample.  The claim says that the base URL is the value
    of [MLOPS_SERVICE_URL] unless the variable is unset.  When the
    variable is set to the empty string the base URL is not its value:
    the request goes to [http://localhost:5001/track].  Besides, the
    claim gives the publish request a 5000 ms timeout, and the first
    version of [trackMetrics] sends it without any. *)
Lemma blank_url_uses_default :
  (process_env env_blank_url !! "MLOPS_SERVICE_URL"%string = Some (lit "")
   ∧ ∃ req r,
       new_events (Tracking.trackMetrics env_blank_url 1%positive) w0 !! 2%nat
       = Some (EvFetch req r)
       ∧ url req = lit "http://localhost:5001/track"
       ∧ url req ≠ lit "" ++ lit "/track")
  ∧ (∃ req r,
       new_events (TrackingV1.trackMetrics env_ok 1%positive) w0
       = [EvFetch req r]
       ∧ timeout_ms req ≠ Some 5000).
Proof.
  split.
  - split; [reflexivity|].
    eexists _, _. split; [vm_compute; reflexivity|].
    split; [reflexivity | discriminate].
  - eexists _, _. split; [vm_compute; reflexivity|]. discriminate.
Qed.

(** C7, amended.  The base URL is the value of [MLOPS_SERVICE_URL], or
    [http://localhost:5001] when the variable is unset or set to the
    empty string.  Once the database module is imported and the record
    stored, the publish request is sent: a POST to [base/track] with
    [Content-Type: application/json], the serialized record as body and
    a 5000 ms timeout.  A response whose status is outside 200-299 fails
    the publish step: the error carrying the status is printed with
    [console.error] and no refresh is attempted.  After a 2xx response
    with a JSON body other than [null] the refresh request is sent: a
    POST to [base/refresh-metrics] with a 3000 ms timeout.  A run sends
    no other request.  The first version of [trackMetrics] always sends
    the publish request, without a timeout, and nothing else. *)
Theorem publish_request_shape (env : Env) (metricsData : addr) (w : World) :
  (* the base URL *)
  (process_env env !! "MLOPS_SERVICE_URL"%string = None ->
   mlopsServiceUrl env = lit "http://localhost:5001")
  ∧ (process_env env !! "MLOPS_SERVICE_URL"%string = Some (lit "") ->
     mlopsServiceUrl env = lit "http://localhost:5001")
  ∧ (∀ u, process_env env !! "MLOPS_SERVICE_URL"%string = Some u ->
          u ≠ lit "" -> mlopsServiceUrl env = u)
  (* the publish request is sent once the record is stored *)
  ∧ (∀ md rows,
       import_settles env (trace w) = Fulfilled tt ->
       objects w !! metricsData = Some md ->
       sql_settles env (trace w ++ [EvImport (Fulfilled tt)])
         (Database.insert_values (Tracking.metrics_input md))
       = Fulfilled rows ->
       ∃ req r,
         new_events (Tracking.trackMetrics env metricsData) w !! 2%nat
         = Some (EvFetch req r)
         ∧ url req = mlopsServiceUrl env ++ lit "/track"
         ∧ method req = lit "POST"
         ∧ headers req = [(lit "Content-Type", lit "application/json")]
         ∧ body req = Some (JSON_stringify md)
         ∧ timeout_ms req = Some 5000
         (* a status outside 200-299 fails the publish step *)
         ∧ (∀ resp,
              r = Fulfilled resp -> ok resp = false ->
              length (new_events (Tracking.trackMetrics env metricsData) w)
              = 3%nat
              ∧ new_console (Tracking.trackMetrics env metricsData) w
                = [ConsoleError (lit "Error tracking metrics:")
                     (LogErr (StatusError (status resp)))])
         (* the refresh request follows a 2xx answer with a JSON body *)
         ∧ (∀ resp v,
              r = Fulfilled resp -> ok resp = true ->
              json resp = Fulfilled v -> v ≠ JNull ->
              ∃ req' r',
                new_events (Tracking.trackMetrics env metricsData) w !! 3%nat
                = Some (EvFetch req' r')
                ∧ url req' = mlopsServiceUrl env ++ lit "/refresh-metrics"
                ∧ method req' = lit "POST"
                ∧ headers req'
                  = [(lit "Content-Type", lit "application/json")]
                ∧ body req'
                  = Some (JObject
                            [("trigger"%string, JString (lit "new_metrics"))])
                ∧ timeout_ms req' = Some 3000))
  (* the full version sends no other request *)
  ∧ (∀ req r,
       EvFetch req r ∈ new_events (Tracking.trackMetrics env metricsData) w ->
       (url req = mlopsServiceUrl env ++ lit "/track"
        ∧ method req = lit "POST"
        ∧ headers req = [(lit "Content-Type", lit "application/json")]
        ∧ (∃ md, objects w !! metricsData = Some md
                 ∧ body req = Some (JSON_stringify md))
        ∧ timeout_ms req = Some 5000)
       ∨ (url req = mlopsServiceUrl env ++ lit "/refresh-metrics"
          ∧ method req = lit "POST"
          ∧ headers req = [(lit "Content-Type", lit "application/json")]
          ∧ body req
            = Some (JObject [("trigger"%string, JString (lit "new_metrics"))])
          ∧ timeout_ms req = Some 3000))
  (* whenever the publish request is answered with a status outside
     200-299, the error is logged and no refresh is attempted *)
  ∧ (∀ req resp,
       EvFetch req (Fulfilled resp)
         ∈ new_events (Tracking.trackMetrics env metricsData) w ->
       step_of env (EvFetch req (Fulfilled resp)) = Some Publish ->
       ok resp = false ->
       new_console (Tracking.trackMetrics env metricsData) w
       = [ConsoleError (lit "Error tracking metrics:")
            (LogErr (StatusError (status resp)))]
       ∧ ¬ attempted env Refresh
             (new_events (Tracking.trackMetrics env metricsData) w))
  (* the first version: one request, always sent, without a timeout; its
     body is the serialized argument, none for [undefined] *)
  ∧ (∃ req r,
       new_events (TrackingV1.trackMetrics env metricsData) w = [EvFetch req r]
       ∧ url req = mlopsServiceUrl env ++ lit "/track"
       ∧ method req = lit "POST"
       ∧ headers req = [(lit "Content-Type", lit "application/json")]
       ∧ body req = JSON_stringify <$> objects w !! metricsData
       ∧ timeout_ms req = None).
Proof.
  split; [|split; [|split]].
  - unfold mlopsServiceUrl. by intros ->.
  - unfold mlopsServiceUrl. by intros ->.
  - unfold mlopsServiceUrl. intros u -> Hu. by destruct u.
  - split; [|split; [|split]].
    + intros md rows Himp Hmd Hsql.
      run; norm_trace; try congruence.
      all: eexists _, _; split; [reflexivity|].
      all: do 5 (split; [reflexivity|]).
      all: split; [intros resp' E Hok | intros resp' v' E Hok Hjson Hv].
      all: try discriminate E.
      all: try (injection E as <-).
      all: try congruence.
      all: try (split; reflexivity).
      all: try (eexists _, _; split; [reflexivity|];
                repeat split; reflexivity).
    + unfold attempted.
      run; norm_trace; intros req r Hin; elim_in Hin; try discriminate Hin.
      all: injection Hin as -> ->.
      all: first
             [ left; do 3 (split; [reflexivity|]);
               split; [eexists; split; [first [eassumption|reflexivity]|reflexivity] | reflexivity]
             | right; repeat split; reflexivity ].
    + unfold attempted.
      run; norm_trace; norm_steps; intros req resp Hin Hstep Hok; elim_in Hin;
        try discriminate Hin.
      all: try (injection Hin as -> ->).
      all: try (rewrite step_of_refresh in Hstep; discriminate Hstep).
      all: try congruence.
      all: try (split; [|absent]).
      all: norm_trace; try reflexivity.
    + run; norm_trace.
      all: eexists _, _; split; [reflexivity|]; repeat split; reflexivity.
Qed.

Lemma publish_request_shape_witness :
  mlopsServiceUrl env_ok = lit "http://localhost:5001"
  ∧ mlopsServiceUrl env_blank_url = lit "http://localhost:5001"
  ∧ mlopsServiceUrl env_custom_url = lit "http://mlops:8080"
  ∧ (∃ req r,
       new_events (Tracking.trackMetrics env_ok 1%positive) w0 !! 2%nat
       = Some (EvFetch req r)
       ∧ url req = lit "http://localhost:5001/track"
       ∧ timeout_ms req = Some 5000)
  ∧ new_console (Tracking.trackMetrics env_503 1%positive) w0
    = [ConsoleError (lit "Error tracking metrics:") (LogErr (StatusError 503))].
Proof.
  split; [|split; [|split; [|split]]].
  - apply (proj1 (publish_request_shape env_ok 1%positive w0)).
    reflexivity.
  - apply (proj1 (proj2 (publish_request_shape env_blank_url 1%positive w0))).
    reflexivity.
  - apply (proj1 (proj2 (proj2
             (publish_request_shape env_custom_url 1%positive w0)))).
    + reflexivity.
    + discriminate.
  - pose proof (publish_request_shape env_ok 1%positive w0)
      as (_ & _ & _ & H & _).
    destruct (H md0 [] eq_refl eq_refl eq_refl)
      as (req & r & H1 & H2 & _ & _ & _ & H3 & _).
    exists req, r. split; [exact H1|]. split; [exact H2|exact H3].
  - pose proof (publish_request_shape env_503 1%positive w0)
      as (_ & _ & _ & _ & _ & H & _).
    apply (H (Tracking.track_request env_503 md0)
             {| status := 503; json := Rejected SyntaxError |}).
    + vm_compute.
      apply list_elem_of_further, list_elem_of_further, list_elem_of_here.
    + apply step_of_track.
    + reflexivity.
Defined.

(** C9.  [trackMetrics] never mutates the record it is given: whatever
    the outcome of the external calls, after the run the object store of
    the caller is the one before the run, so the record behind
    [metricsData] (and every other object) is field for field what it
    was.  This holds for both versions. *)
Theorem trackMetrics_never_mutates_record
  (env : Env) (metricsData : addr) (w : World) :
  objects (Tracking.trackMetrics env metricsData w).2 = objects w
  ∧ objects (Tracking.trackMetrics env metricsData w).2 !! metricsData
    = objects w !! metricsData
  ∧ objects (TrackingV1.trackMetrics env metricsData w).2 = objects w
  ∧ objects (TrackingV1.trackMetrics env metricsData w).2 !! metricsData
    = objects w !! metricsData.
Proof.
  pose proof (preserves_trackMetrics env metricsData w) as H.
  pose proof (preserves_trackMetrics_v1 env metricsData w) as H1.
  rewrite H, H1. repeat split; reflexivity.
Qed.

(** C10.  The value [createAIMetrics] inserts in the column
    [appointment_booked] is [false] when the field of the record is
    absent ([undefined]), never an absent value, and the boolean of the
    record when it is present; these are the values passed to the
    INSERT. *)
Theorem appointment_booked_defaults_to_false (metrics : AIMetricsInput) :
  inserted "appointment_booked" metrics
  = Some (PBool (default false (in_appointment_booked metrics)))
  ∧ (in_appointment_booked metrics = None ->
     inserted "appointment_booked" metrics = Some (PBool false))
  ∧ (∀ b, in_appointment_booked metrics = Some b ->
          inserted "appointment_booked" metrics = Some (PBool b))
  ∧ (∀ env w,
       new_events (Database.createAIMetrics env metrics) w
       = [EvSql (Database.insert_values metrics)
            (sql_settles env (trace w) (Database.insert_values metrics))]).
Proof.
  assert (H : inserted "appointment_booked" metrics
              = Some (PBool (default false (in_appointment_booked metrics)))).
  { unfold inserted. cbn. by destruct (in_appointment_booked metrics) as [[]|]. }
  split; [exact H|]. split; [|split].
  - intros Hnone. rewrite H, Hnone. reflexivity.
  - intros b Hsome. rewrite H, Hsome. reflexivity.
  - intros env w. run; norm_trace; congruence.
Qed.

Lemma appointment_booked_defaults_to_false_witness :
  inserted "appointment_booked" input0 = Some (PBool false).
Proof.
  apply (proj1 (proj2 (appointment_booked_defaults_to_false input0))).
  reflexivity.
Defined.

(* ===================================================================== *)
(** ** Binary64 arithmetic: rounding error of the operations *)
(* ===================================================================== *)

(** The operations of [SpecFloat] are analysed from their definitions:
    first the meaning of the shift-right records ([located]), then the
    rounding step [binary_round_aux] (at most half a unit in the last
    place, exact on representable values), then the standard model of
    multiplication and division, [fl(x op y) = (x op y)(1 + d)] with
    [|d| <= 2^-53], and the exact cases of conversion and addition.
    Values are rationals; exponents stay in the normal range. *)

Lemma digits2_pos_size (p : positive) : digits2_pos p = Pos.size p.
Proof. induction p; simpl; congruence. Qed.

Lemma digits2_pos_bounds (p : positive) :
  2 ^ (Zpos (digits2_pos p) - 1) <= Zpos p < 2 ^ Zpos (digits2_pos p).
Proof.
  rewrite digits2_pos_size. split.
  - pose proof (Pos.size_le p) as H.
    apply Pos2Z.pos_le_pos in H. rewrite Pos2Z.inj_pow in H.
    replace (Zpos (Pos.size p)) with (Z.succ (Zpos (Pos.size p) - 1)) in H by lia.
    rewrite Z.pow_succ_r in H by lia.
    change (Zpos p~0) with (2 * Zpos p) in H. lia.
  - pose proof (Pos.size_gt p) as H.
    apply Pos2Z.pos_lt_pos in H. rewrite Pos2Z.inj_pow in H. exact H.
Qed.

Lemma digits2_pos_unique (p : positive) (d : Z) :
  2 ^ (d - 1) <= Zpos p < 2 ^ d -> Zpos (digits2_pos p) = d.
Proof.
  intros [Hlo Hhi]. pose proof (digits2_pos_bounds p) as [Hlo' Hhi'].
  assert (0 < d).
  { destruct (Z.lt_trichotomy d 0) as [Hd|[Hd|Hd]]; try lia.
    - rewrite Z.pow_neg_r in Hhi by lia. lia.
    - subst d. simpl in Hhi. lia. }
  destruct (Z.lt_trichotomy (Zpos (digits2_pos p)) d) as [Hlt|[Heq|Hgt]].
  - assert (2 ^ Zpos (digits2_pos p) <= 2 ^ (d - 1))
      by (apply Z.pow_le_mono_r; lia). lia.
  - exact Heq.
  - assert (2 ^ d <= 2 ^ (Zpos (digits2_pos p) - 1))
      by (apply Z.pow_le_mono_r; lia). lia.
Qed.

Lemma pow2_pos (e : Z) : (0 < pow2 e)%Q.
Proof. apply Qpower_0_lt. reflexivity. Qed.

Lemma pow2_add (a b : Z) : (pow2 (a + b) == pow2 a * pow2 b)%Q.
Proof. apply Qpower_plus. discriminate. Qed.

Lemma pow2_nonneg (e : Z) : 0 <= e -> (pow2 e == inject_Z (2 ^ e))%Q.
Proof. intros H. unfold pow2. rewrite Zpower_Qpower by exact H. reflexivity. Qed.

Lemma pow2_0 : (pow2 0 == 1)%Q.
Proof. reflexivity. Qed.

Lemma pow2_succ (e : Z) : (pow2 (e + 1) == 2 * pow2 e)%Q.
Proof. rewrite pow2_add. change (pow2 1) with 2%Q. ring. Qed.

Lemma pow2_pred (e : Z) : (pow2 (e - 1) == pow2 e * (1 # 2))%Q.
Proof.
  replace e with ((e - 1) + 1) at 2 by lia.
  rewrite pow2_succ. ring.
Qed.

Lemma pow2_le (a b : Z) : a <= b -> (pow2 a <= pow2 b)%Q.
Proof.
  intros H. replace b with (a + (b - a)) by lia.
  rewrite pow2_add, (pow2_nonneg (b - a)) by lia.
  assert (0 < 2 ^ (b - a)) by (apply Z.pow_pos_nonneg; lia).
  assert (1 <= 2 ^ (b - a)) by lia.
  assert (1 <= inject_Z (2 ^ (b - a)))%Q
    by (change 1%Q with (inject_Z 1); rewrite <- Zle_Qle; assumption).
  pose proof (pow2_pos a). nra.
Qed.

Lemma located_ext (X Y : Q) (rec : shr_record) :
  (X == Y)%Q -> located X rec -> located Y rec.
Proof.
  intros HXY [Hm H]. split; [exact Hm|].
  destruct (shr_r rec), (shr_s rec); rewrite <- HXY; exact H.
Qed.

Lemma located_bounds (X : Q) (rec : shr_record) :
  located X rec ->
  (inject_Z (shr_m rec) <= X /\ X < inject_Z (shr_m rec) + 1)%Q.
Proof.
  intros [_ H]. destruct (shr_r rec), (shr_s rec); lra.
Qed.

Lemma inject_Z_xO (p : positive) :
  (inject_Z (Zpos p~0) == 2 * inject_Z (Zpos p))%Q.
Proof.
  change (Zpos p~0) with (2 * Zpos p)%Z. rewrite inject_Z_mult. reflexivity.
Qed.

Lemma inject_Z_xI (p : positive) :
  (inject_Z (Zpos p~1) == 2 * inject_Z (Zpos p) + 1)%Q.
Proof.
  change (Zpos p~1) with (2 * Zpos p + 1)%Z.
  rewrite inject_Z_plus, inject_Z_mult. reflexivity.
Qed.

(** One step of the right shift halves the located value. *)
Lemma located_shr_1 (X : Q) (rec : shr_record) :
  located X rec -> located (X * (1 # 2)) (shr_1 rec).
Proof.
  destruct rec as [m r s]. intros [Hm H]. simpl in Hm, H.
  destruct m as [|p|p]; [| |lia].
  - split; [simpl; lia|].
    destruct r, s; simpl in *; change (inject_Z 0) with 0%Q in *; lra.
  - destruct p as [p|p|].
    + pose proof (inject_Z_xI p) as E.
      split; [simpl; lia|].
      destruct r, s; simpl in *; lra.
    + pose proof (inject_Z_xO p) as E.
      split; [simpl; lia|].
      destruct r, s; simpl in *; lra.
    + split; [simpl; lia|].
      destruct r, s; simpl in *;
        change (inject_Z 0) with 0%Q in *; change (inject_Z 1) with 1%Q in *;
        lra.
Qed.

Lemma pow2_neg_xI (n : positive) :
  (pow2 (- Zpos n~1) == (1 # 2) * pow2 (- Zpos n) * pow2 (- Zpos n))%Q.
Proof.
  replace (- Zpos n~1) with ((-1) + (- Zpos n + - Zpos n)) by lia.
  rewrite !pow2_add. change (pow2 (-1)) with (1 # 2)%Q. ring.
Qed.

Lemma pow2_neg_xO (n : positive) :
  (pow2 (- Zpos n~0) == pow2 (- Zpos n) * pow2 (- Zpos n))%Q.
Proof.
  replace (- Zpos n~0) with (- Zpos n + - Zpos n) by lia.
  rewrite !pow2_add. ring.
Qed.

(** [n] steps divide it by [2^n]. *)
Lemma located_iter (n : positive) :
  forall (X : Q) (rec : shr_record),
    located X rec ->
    located (X * pow2 (- Zpos n)) (SpecFloat.iter_pos shr_1 n rec).
Proof.
  induction n as [n IH|n IH|]; intros X rec H.
  - apply located_shr_1 in H. apply IH in H. apply IH in H.
    eapply located_ext; [|exact H].
    rewrite pow2_neg_xI. ring.
  - apply IH in H. apply IH in H.
    eapply located_ext; [|exact H].
    rewrite pow2_neg_xO. ring.
  - apply located_shr_1 in H.
    eapply located_ext; [|exact H].
    change (pow2 (- 1)) with (1 # 2)%Q. reflexivity.
Qed.

(** Rounding a located value to nearest: the result is one of the two
    neighbouring integers, at most one half away, and the value itself
    when it is an integer. *)
Lemma round_nearest_even_located (X : Q) (rec : shr_record) :
  located X rec ->
  let q := round_nearest_even (shr_m rec) (loc_of_shr_record rec) in
  shr_m rec <= q <= shr_m rec + 1
  /\ (inject_Z q - (1 # 2) <= X /\ X <= inject_Z q + (1 # 2))%Q
  /\ ((X == inject_Z (shr_m rec))%Q -> q = shr_m rec).
Proof.
  destruct rec as [m r s]. intros [Hm H]. simpl in *.
  destruct r, s; simpl in *.
  - rewrite inject_Z_plus. change (inject_Z 1) with 1%Q.
    split; [lia|]. split; [lra|]. intros E. lra.
  - destruct (Z.even m).
    + split; [lia|]. split; [lra|]. reflexivity.
    + rewrite inject_Z_plus. change (inject_Z 1) with 1%Q.
      split; [lia|]. split; [lra|]. intros E. lra.
  - split; [lia|]. split; [lra|]. reflexivity.
  - split; [lia|]. split; [lra|]. reflexivity.
Qed.

Lemma fexp_normal (e : Z) :
  -1074 <= e - 53 -> SpecFloat.fexp prec emax e = e - 53.
Proof. unfold SpecFloat.fexp, SpecFloat.emin, prec, emax. lia. Qed.

Lemma shr_m_of_loc (m : Z) (l : location) :
  shr_m (shr_record_of_loc m l) = m.
Proof. destruct l as [|[]]; reflexivity. Qed.

Lemma located_exact (m : Z) : 0 <= m -> located (inject_Z m) (shr_record_of_loc m loc_Exact).
Proof. intros H. split; simpl; [exact H|reflexivity]. Qed.

Lemma shr_located (X : Q) (rec : shr_record) (e n : Z) :
  0 <= n -> located X rec ->
  located (X * pow2 (- n)) (fst (shr rec e n)) /\ snd (shr rec e n) = e + n.
Proof.
  intros Hn H. destruct n as [|p|p]; [| |lia]; simpl.
  - split; [|lia]. eapply located_ext; [|exact H].
    change (pow2 (- 0)) with 1%Q. ring.
  - split; [|reflexivity]. apply (located_iter p), H.
Qed.

Lemma inject_Z_pow2 (e : Z) : 0 <= e -> (inject_Z (2 ^ e) == pow2 e)%Q.
Proof. intros H. symmetry. apply pow2_nonneg, H. Qed.

(** The first shift of [binary_round_aux] brings a mantissa of at least 53
    bits down to exactly 53 bits. *)
Lemma first_shift (mx : positive) (ex : Z) (lx : location) (X : Q) :
  53 <= Zpos (digits2_pos mx) ->
  -1074 <= Zpos (digits2_pos mx) + ex - 53 ->
  located X (shr_record_of_loc (Zpos mx) lx) ->
  exists rec',
    shr_fexp prec emax (Zpos mx) ex lx = (rec', Zpos (digits2_pos mx) + ex - 53)
    /\ located (X * pow2 (53 - Zpos (digits2_pos mx))) rec'
    /\ 2 ^ 52 <= shr_m rec' < 2 ^ 53.
Proof.
  set (d := Zpos (digits2_pos mx)). intros Hd Hmin Hloc.
  unfold shr_fexp. cbn [Zdigits2]. fold d.
  rewrite fexp_normal by lia.
  replace (d + ex - 53 - ex) with (d - 53) by lia.
  destruct (shr_located X _ ex (d - 53) ltac:(lia) Hloc) as [Hl He].
  destruct (shr (shr_record_of_loc (Zpos mx) lx) ex (d - 53)) as [rec' e'].
  simpl in Hl, He. subst e'.
  exists rec'. split; [f_equal; lia|].
  replace (- (d - 53)) with (53 - d) in Hl by lia.
  split; [exact Hl|].
  pose proof (located_bounds _ _ Hloc) as [HX1 HX2].
  rewrite shr_m_of_loc in HX1, HX2.
  pose proof (located_bounds _ _ Hl) as [HY1 HY2].
  pose proof (digits2_pos_bounds mx) as [Hlo Hhi]. fold d in Hlo, Hhi.
  assert (Hlo' : (pow2 (d - 1) <= inject_Z (Zpos mx))%Q).
  { rewrite <- inject_Z_pow2 by lia. rewrite <- Zle_Qle. exact Hlo. }
  assert (Hhi' : (inject_Z (Zpos mx) + 1 <= pow2 d)%Q).
  { rewrite <- inject_Z_pow2 by lia.
    change 1%Q with (inject_Z 1). rewrite <- inject_Z_plus, <- Zle_Qle. lia. }
  pose proof (pow2_pos (53 - d)) as Hp.
  assert (E1 : (pow2 (d - 1) * pow2 (53 - d) == inject_Z (2 ^ 52))%Q).
  { rewrite <- pow2_add. replace (d - 1 + (53 - d)) with 52 by lia. reflexivity. }
  assert (E2 : (pow2 d * pow2 (53 - d) == inject_Z (2 ^ 53))%Q).
  { rewrite <- pow2_add. replace (d + (53 - d)) with 53 by lia. reflexivity. }
  assert (H1 : (inject_Z (2 ^ 52) <= X * pow2 (53 - d))%Q) by (rewrite <- E1; nra).
  assert (H2 : (X * pow2 (53 - d) < inject_Z (2 ^ 53))%Q) by (rewrite <- E2; nra).
  split.
  - assert (H3 : (inject_Z (2 ^ 52) < inject_Z (shr_m rec' + 1))%Q).
    { rewrite inject_Z_plus. change (inject_Z 1) with 1%Q. lra. }
    rewrite <- Zlt_Qlt in H3. lia.
  - assert (H3 : (inject_Z (shr_m rec') < inject_Z (2 ^ 53))%Q) by lra.
    rewrite <- Zlt_Qlt in H3. exact H3.
Qed.

(** The second shift absorbs the carry of the rounding: a rounded
    mantissa of 53 bits is kept, [2^53] becomes [2^52] one binade up. *)
Lemma second_shift (sx : bool) (q e' : Z) :
  2 ^ 52 <= q <= 2 ^ 53 -> -1074 <= e' <= 970 ->
  exists mz ez,
    (let '(mrs'', e'') := shr_fexp prec emax q e' loc_Exact in
     match shr_m mrs'' with
     | Z0 => S754_zero sx
     | Zpos m =>
         if e'' <=? emax - prec then S754_finite sx m e'' else S754_infinity sx
     | Zneg _ => S754_nan
     end) = S754_finite sx mz ez
    /\ normal53 mz
    /\ e' <= ez <= e' + 1
    /\ (F2Q mz ez == inject_Z q * pow2 e')%Q
    /\ (q < 2 ^ 53 -> Zpos mz = q /\ ez = e').
Proof.
  change (2 ^ 52) with 4503599627370496.
  change (2 ^ 53) with 9007199254740992.
  intros Hq He.
  destruct q as [|pq|pq]; try lia.
  destruct (Z.eq_dec (Zpos pq) 9007199254740992) as [E|NE].
  - injection E as ->.
    exists (4503599627370496%positive), (e' + 1).
    unfold shr_fexp. cbn [Zdigits2].
    change (Zpos (digits2_pos 9007199254740992)) with 54.
    rewrite fexp_normal by lia.
    replace (54 + e' - 53 - e') with 1 by lia.
    cbn [shr shr_record_of_loc SpecFloat.iter_pos shr_1 shr_m orb].
    replace (e' + 1 <=? emax - prec) with true
      by (symmetry; apply Z.leb_le; unfold emax, prec; lia).
    split; [reflexivity|]. split; [reflexivity|]. split; [lia|].
    split; [|lia].
    unfold F2Q. rewrite pow2_succ.
    change (inject_Z (Zpos 9007199254740992))
      with (2 * inject_Z (Zpos 4503599627370496))%Q. ring.
  - exists pq, e'.
    assert (Hd : Zpos (digits2_pos pq) = 53) by (apply digits2_pos_unique; lia).
    unfold shr_fexp. cbn [Zdigits2]. rewrite Hd.
    rewrite fexp_normal by lia.
    replace (53 + e' - 53 - e') with 0 by lia.
    cbn [shr shr_record_of_loc shr_m].
    replace (e' <=? emax - prec) with true
      by (symmetry; apply Z.leb_le; unfold emax, prec; lia).
    split; [reflexivity|]. split; [exact Hd|]. split; [lia|].
    split; [reflexivity|]. intros _. split; reflexivity.
Qed.

(** The rounding step of every operation: a located value whose mantissa
    has at least 53 bits, in the normal range and below the overflow
    threshold, is rounded to a normal Number at most half a unit in the
    last place away, and exactly when the value is representable. *)
Lemma binary_round_aux_correct
  (sx : bool) (mx : positive) (ex : Z) (lx : location) (X : Q) :
  53 <= Zpos (digits2_pos mx) ->
  -1074 <= Zpos (digits2_pos mx) + ex - 53 ->
  Zpos (digits2_pos mx) + ex <= 1023 ->
  located X (shr_record_of_loc (Zpos mx) lx) ->
  exists mz ez,
    binary_round_aux prec emax sx (Zpos mx) ex lx = S754_finite sx mz ez
    /\ normal53 mz
    /\ Zpos (digits2_pos mx) + ex - 53 <= ez <= Zpos (digits2_pos mx) + ex - 52
    /\ (F2Q mz ez - pow2 (Zpos (digits2_pos mx) + ex - 54) <= X * pow2 ex
        /\ X * pow2 ex <= F2Q mz ez + pow2 (Zpos (digits2_pos mx) + ex - 54))%Q
    /\ (forall k : positive,
          (X * pow2 ex == F2Q k (Zpos (digits2_pos mx) + ex - 53))%Q ->
          mz = k /\ ez = Zpos (digits2_pos mx) + ex - 53).
Proof.
  set (d := Zpos (digits2_pos mx)). intros Hd Hmin Hmax Hloc.
  destruct (first_shift mx ex lx X Hd Hmin Hloc) as (rec' & Hshr & Hl & Hm).
  fold d in Hshr, Hl.
  pose proof (round_nearest_even_located _ _ Hl) as (Hq & Hnear & Hexact).
  set (q := round_nearest_even (shr_m rec') (loc_of_shr_record rec')) in *.
  destruct (second_shift sx q (d + ex - 53) ltac:(lia) ltac:(lia))
    as (mz & ez & Hres & Hnorm & Hez & Hval & Hnocarry).
  exists mz, ez.
  split.
  { unfold binary_round_aux. rewrite Hshr. fold q. exact Hres. }
  split; [exact Hnorm|]. split; [lia|].
  assert (EX : (X * pow2 ex == X * pow2 (53 - d) * pow2 (d + ex - 53))%Q).
  { rewrite <- Qmult_assoc, <- pow2_add.
    replace (53 - d + (d + ex - 53)) with ex by lia. reflexivity. }
  assert (EH : (pow2 (d + ex - 54) == (1 # 2) * pow2 (d + ex - 53))%Q).
  { replace (d + ex - 54) with (d + ex - 53 - 1) by lia.
    rewrite pow2_pred. ring. }
  pose proof (pow2_pos (d + ex - 53)) as Hp.
  split.
  { rewrite Hval, EX, EH. split; nra. }
  intros k Hk.
  assert (Hk' : (X * pow2 (53 - d) == inject_Z (Zpos k))%Q).
  { unfold F2Q in Hk. rewrite EX in Hk.
    apply Qmult_inj_r in Hk; [exact Hk|]. lra. }
  pose proof (located_bounds _ _ Hl) as [HY1 HY2].
  assert (Hmk : shr_m rec' = Zpos k).
  { rewrite Hk' in HY1, HY2.
    rewrite <- Zle_Qle in HY1.
    change 1%Q with (inject_Z 1) in HY2.
    rewrite <- inject_Z_plus, <- Zlt_Qlt in HY2. lia. }
  assert (Hqk : q = Zpos k).
  { rewrite <- Hmk. apply Hexact. rewrite Hk', Hmk. reflexivity. }
  destruct Hnocarry as [H1 H2]; [lia|].
  split; [|exact H2]. rewrite Hqk in H1. injection H1 as ->. reflexivity.
Qed.

(** A normal mantissa puts the value in the binade of its exponent. *)
Lemma F2Q_binade (m : positive) (e : Z) :
  (pow2 (Zpos (digits2_pos m) - 1 + e) <= F2Q m e
   /\ F2Q m e < pow2 (Zpos (digits2_pos m) + e))%Q.
Proof.
  pose proof (digits2_pos_bounds m) as [Hlo Hhi].
  pose proof (digits2_pos_size m).
  assert (0 < Zpos (digits2_pos m)) by lia.
  unfold F2Q. rewrite !pow2_add.
  rewrite (pow2_nonneg (Zpos (digits2_pos m) - 1)) by lia.
  rewrite (pow2_nonneg (Zpos (digits2_pos m))) by lia.
  rewrite Zle_Qle in Hlo. rewrite Zlt_Qlt in Hhi.
  pose proof (pow2_pos e). split; nra.
Qed.

Lemma pow2_lt_inv (a b : Z) : (pow2 a < pow2 b)%Q -> a < b.
Proof.
  intros H. destruct (Z_lt_le_dec a b) as [Hlt|Hle]; [exact Hlt|].
  apply pow2_le in Hle. lra.
Qed.

(** Two values in normal form are equal only if they are the same
    mantissa and exponent. *)
Lemma F2Q_inj (m m' : positive) (e e' : Z) :
  Zpos (digits2_pos m) = Zpos (digits2_pos m') ->
  (F2Q m e == F2Q m' e')%Q -> m = m' /\ e = e'.
Proof.
  intros Hd HV.
  pose proof (F2Q_binade m e) as [A1 A2].
  pose proof (F2Q_binade m' e') as [B1 B2].
  rewrite <- Hd in B1, B2.
  assert (e = e').
  { assert (Zpos (digits2_pos m) - 1 + e < Zpos (digits2_pos m) + e')
      by (apply pow2_lt_inv; lra).
    assert (Zpos (digits2_pos m) - 1 + e' < Zpos (digits2_pos m) + e)
      by (apply pow2_lt_inv; lra).
    lia. }
  subst e'. split; [|reflexivity].
  unfold F2Q in HV.
  apply (proj1 (Qmult_inj_r _ _ (pow2 e) ltac:(pose proof (pow2_pos e); lra)))
    in HV.
  apply (proj1 (inject_Z_injective _ _)) in HV.
  injection HV as ->. reflexivity.
Qed.

(** The rounding step is exact on a representable value. *)
Lemma binary_round_aux_exact
  (sx : bool) (mx : positive) (ex : Z) (k : positive) (e : Z) :
  53 <= Zpos (digits2_pos mx) ->
  normal53 k -> -1074 <= e <= 970 ->
  (F2Q mx ex == F2Q k e)%Q ->
  binary_round_aux prec emax sx (Zpos mx) ex loc_Exact = S754_finite sx k e.
Proof.
  intros Hd Hk He HV.
  pose proof (F2Q_binade mx ex) as [A1 A2].
  pose proof (F2Q_binade k e) as [B1 B2]. rewrite Hk in B1, B2.
  assert (Hde : Zpos (digits2_pos mx) + ex = 53 + e).
  { assert (Zpos (digits2_pos mx) - 1 + ex < 53 + e)
      by (apply pow2_lt_inv; lra).
    assert (53 - 1 + e < Zpos (digits2_pos mx) + ex)
      by (apply pow2_lt_inv; lra).
    lia. }
  destruct (binary_round_aux_correct sx mx ex loc_Exact (inject_Z (Zpos mx)))
    as (mz & ez & Hres & _ & _ & _ & Hexact); try lia.
  { apply located_exact. lia. }
  destruct (Hexact k) as [-> ->].
  { replace (Zpos (digits2_pos mx) + ex - 53) with e by lia. exact HV. }
  rewrite Hres. f_equal. lia.
Qed.

Lemma pow2_m53 : (pow2 (-53) == u64)%Q.
Proof. reflexivity. Qed.

Lemma half_ulp_relative (d e : Z) :
  (pow2 (d + e - 54) == u64 * pow2 (d - 1 + e))%Q.
Proof.
  rewrite <- pow2_m53, <- pow2_add.
  replace (-53 + (d - 1 + e)) with (d + e - 54) by lia. reflexivity.
Qed.

Lemma F2Q_pos (m : positive) (e : Z) : (0 < F2Q m e)%Q.
Proof.
  unfold F2Q. pose proof (pow2_pos e).
  assert (0 < inject_Z (Zpos m))%Q
    by (change 0%Q with (inject_Z 0); rewrite <- Zlt_Qlt; lia).
  nra.
Qed.

Lemma F2Q_mul (mx my : positive) (ex ey : Z) :
  (F2Q (mx * my) (ex + ey) == F2Q mx ex * F2Q my ey)%Q.
Proof.
  unfold F2Q. rewrite Pos2Z.inj_mul, inject_Z_mult, pow2_add. ring.
Qed.

Lemma digits2_pos_mul (mx my : positive) :
  normal53 mx -> normal53 my ->
  105 <= Zpos (digits2_pos (mx * my)) <= 106.
Proof.
  unfold normal53. intros Hx Hy.
  pose proof (digits2_pos_bounds mx) as [X1 X2]. rewrite Hx in X1, X2.
  pose proof (digits2_pos_bounds my) as [Y1 Y2]. rewrite Hy in Y1, Y2.
  pose proof (digits2_pos_bounds (mx * my)) as [P1 P2].
  rewrite Pos2Z.inj_mul in P1, P2.
  change (2 ^ (53 - 1)) with 4503599627370496 in *.
  change (2 ^ 53) with 9007199254740992 in *.
  assert (L : 2 ^ 104 <= Zpos mx * Zpos my)
    by (change (2 ^ 104) with (4503599627370496 * 4503599627370496); nia).
  assert (U : Zpos mx * Zpos my < 2 ^ 106)
    by (change (2 ^ 106) with (9007199254740992 * 9007199254740992); nia).
  split.
  - assert (104 < Zpos (digits2_pos (mx * my)))
      by (apply (Z.pow_lt_mono_r_iff 2); lia). lia.
  - assert (Zpos (digits2_pos (mx * my)) - 1 < 106)
      by (apply (Z.pow_lt_mono_r_iff 2); lia). lia.
Qed.

(** Multiplication of two normal Numbers, away from underflow and
    overflow: the standard model [fl(x * y) = x * y * (1 + delta)] with
    [|delta| <= 2^-53]. *)
Lemma mul_correct (mx my : positive) (ex ey : Z) :
  normal53 mx -> normal53 my ->
  -1126 <= ex + ey <= 917 ->
  exists mz ez,
    mul (S754_finite false mx ex) (S754_finite false my ey)
    = S754_finite false mz ez
    /\ normal53 mz
    /\ ex + ey + 52 <= ez <= ex + ey + 54
    /\ ((1 - u64) * (F2Q mx ex * F2Q my ey) <= F2Q mz ez
        /\ F2Q mz ez <= (1 + u64) * (F2Q mx ex * F2Q my ey))%Q.
Proof.
  intros Hx Hy He.
  pose proof (digits2_pos_mul mx my Hx Hy) as Hd.
  destruct (binary_round_aux_correct false (mx * my) (ex + ey) loc_Exact
              (inject_Z (Zpos (mx * my))))
    as (mz & ez & Hres & Hnorm & Hez & [Hlo Hhi] & _); try lia.
  { apply located_exact. lia. }
  exists mz, ez. split; [exact Hres|]. split; [exact Hnorm|]. split; [lia|].
  fold (F2Q (mx * my) (ex + ey)) in Hlo, Hhi.
  rewrite half_ulp_relative in Hlo, Hhi.
  pose proof (F2Q_binade (mx * my) (ex + ey)) as [B _].
  rewrite <- F2Q_mul.
  assert (0 < u64)%Q by reflexivity.
  split; nra.
Qed.

(** The location computed from the remainder of a division says where
    the exact quotient lies between [q] and [q + 1]. *)
Lemma new_location_located (my q r : Z) (X : Q) :
  0 < my -> 0 <= q -> 0 <= r < my ->
  (X * inject_Z my == inject_Z q * inject_Z my + inject_Z r)%Q ->
  located X (shr_record_of_loc q (new_location my r)).
Proof.
  intros Hmy Hq Hr HX.
  assert (HY : (0 < inject_Z my)%Q)
    by (change 0%Q with (inject_Z 0); rewrite <- Zlt_Qlt; exact Hmy).
  assert (HR : (0 <= inject_Z r)%Q)
    by (change 0%Q with (inject_Z 0); rewrite <- Zle_Qle; lia).
  assert (Hcmp : forall c,
            (c = Lt -> 2 * r < my) -> (c = Eq -> 2 * r = my) ->
            (c = Gt -> my < 2 * r) -> r <> 0 ->
            located X (shr_record_of_loc q (loc_Inexact c))).
  { intros c HLt HEq HGt Hr0.
    assert (HR' : (0 < inject_Z r)%Q)
      by (change 0%Q with (inject_Z 0); rewrite <- Zlt_Qlt; lia).
    split; [rewrite shr_m_of_loc; exact Hq|].
    destruct c; simpl.
    - specialize (HEq eq_refl).
      assert (E : (2 * inject_Z r == inject_Z my)%Q).
      { change 2%Q with (inject_Z 2). rewrite <- inject_Z_mult, HEq.
        reflexivity. }
      apply Qle_antisym; nra.
    - specialize (HLt eq_refl).
      assert (E : (2 * inject_Z r < inject_Z my)%Q).
      { change 2%Q with (inject_Z 2).
        rewrite <- inject_Z_mult, <- Zlt_Qlt. exact HLt. }
      split; nra.
    - specialize (HGt eq_refl).
      assert (E : (inject_Z my < 2 * inject_Z r)%Q).
      { change 2%Q with (inject_Z 2).
        rewrite <- inject_Z_mult, <- Zlt_Qlt. exact HGt. }
      assert (E' : (inject_Z r < inject_Z my)%Q)
        by (rewrite <- Zlt_Qlt; lia).
      split; nra. }
  unfold new_location, new_location_even, new_location_odd.
  destruct (Z.even my) eqn:Heven.
  - destruct (Z.eqb_spec r 0) as [->|Hr0].
    + split; [simpl; exact Hq|]. simpl.
      change (inject_Z 0) with 0%Q in HX. apply Qle_antisym; nra.
    + apply Hcmp; try exact Hr0; intros Hc.
      * apply Z.compare_lt_iff in Hc. exact Hc.
      * apply Z.compare_eq_iff in Hc. exact Hc.
      * apply Z.compare_gt_iff in Hc. exact Hc.
  - assert (Hodd : Z.odd my = true) by (rewrite <- Z.negb_even, Heven; reflexivity).
    apply Z.odd_spec in Hodd. destruct Hodd as [k Hk].
    destruct (Z.eqb_spec r 0) as [->|Hr0].
    + split; [simpl; exact Hq|]. simpl.
      change (inject_Z 0) with 0%Q in HX. apply Qle_antisym; nra.
    + destruct (Z.compare_spec (2 * r + 1) my) as [Hc|Hc|Hc];
        apply Hcmp; try exact Hr0; intros Hd; try discriminate Hd; lia.
Qed.

(** The integer division at the heart of [SFdiv], for normal operands. *)
Lemma div_core (mx my : positive) (ex ey : Z) :
  normal53 mx -> normal53 my -> -1021 <= ex - ey ->
  exists (pq : positive) (r : Z),
    SFdiv_core_binary prec emax (Zpos mx) ex (Zpos my) ey
    = (Zpos pq, ex - ey - 53, new_location (Zpos my) r)
    /\ Zpos mx * 2 ^ 53 = Zpos my * Zpos pq + r
    /\ 0 <= r < Zpos my
    /\ 53 <= Zpos (digits2_pos pq) <= 54.
Proof.
  unfold normal53. intros Hx Hy He.
  pose proof (digits2_pos_bounds mx) as [X1 X2]. rewrite Hx in X1, X2.
  pose proof (digits2_pos_bounds my) as [Y1 Y2]. rewrite Hy in Y1, Y2.
  change (2 ^ (53 - 1)) with 4503599627370496 in *.
  change (2 ^ 53) with 9007199254740992 in *.
  unfold SFdiv_core_binary. cbn [Zdigits2]. rewrite Hx, Hy.
  rewrite fexp_normal by lia.
  replace (Z.min (53 + ex - (53 + ey) - 53) (ex - ey)) with (ex - ey - 53) by lia.
  replace (ex - ey - (ex - ey - 53)) with 53 by lia.
  rewrite Z.shiftl_mul_pow2 by lia.
  change (2 ^ 53) with 9007199254740992.
  pose proof (Z_div_mod (Zpos mx * 9007199254740992) (Zpos my) ltac:(lia)) as Hdiv.
  destruct (Z.div_eucl (Zpos mx * 9007199254740992) (Zpos my)) as [q r].
  destruct Hdiv as [Hdiv Hr].
  assert (Hq : 4503599627370496 <= q < 18014398509481984) by nia.
  destruct q as [|pq|pq]; try lia.
  exists pq, r. split; [reflexivity|]. split; [exact Hdiv|]. split; [exact Hr|].
  pose proof (digits2_pos_bounds pq) as [P1 P2].
  split.
  - assert (52 < Zpos (digits2_pos pq)).
    { apply (Z.pow_lt_mono_r_iff 2); [lia|lia|].
      change (2 ^ 52) with 4503599627370496. lia. }
    lia.
  - assert (Zpos (digits2_pos pq) - 1 < 54).
    { apply (Z.pow_lt_mono_r_iff 2); [lia|lia|].
      change (2 ^ 54) with 18014398509481984. lia. }
    lia.
Qed.

(** Division of two normal Numbers, away from underflow and overflow:
    [fl(x / y) = x / y * (1 + delta)] with [|delta| <= 2^-53], written
    without division; and the quotient itself when it is representable. *)
Lemma div_correct (mx my : positive) (ex ey : Z) :
  normal53 mx -> normal53 my ->
  -1021 <= ex - ey <= 1022 ->
  exists mz ez,
    div (S754_finite false mx ex) (S754_finite false my ey)
    = S754_finite false mz ez
    /\ normal53 mz
    /\ ex - ey - 53 <= ez <= ex - ey - 51
    /\ ((1 - u64) * F2Q mx ex <= F2Q mz ez * F2Q my ey
        /\ F2Q mz ez * F2Q my ey <= (1 + u64) * F2Q mx ex)%Q
    /\ (forall (k : positive) (e : Z),
          normal53 k -> (F2Q k e * F2Q my ey == F2Q mx ex)%Q ->
          mz = k /\ ez = e).
Proof.
  intros Hx Hy He.
  destruct (div_core mx my ex ey Hx Hy ltac:(lia))
    as (pq & r & Hcore & Hdiv & Hr & Hd).
  set (e' := ex - ey - 53) in *.
  set (X := (inject_Z (Zpos mx * 2 ^ 53) * / inject_Z (Zpos my))%Q).
  assert (HY : (0 < inject_Z (Zpos my))%Q)
    by (change 0%Q with (inject_Z 0); rewrite <- Zlt_Qlt; lia).
  assert (HXY : (X * inject_Z (Zpos my) == inject_Z (Zpos mx * 2 ^ 53))%Q).
  { unfold X. field. lra. }
  assert (Hloc : located X (shr_record_of_loc (Zpos pq)
                              (new_location (Zpos my) r))).
  { apply new_location_located; try lia.
    rewrite HXY, Hdiv, inject_Z_plus, inject_Z_mult. ring. }
  destruct (binary_round_aux_correct false pq e' _ X ltac:(lia) ltac:(lia)
              ltac:(lia) Hloc)
    as (mz & ez & Hres & Hnorm & Hez & [Hlo Hhi] & Hexact).
  (* the exact quotient, scaled *)
  assert (HV : (X * pow2 e' * F2Q my ey == F2Q mx ex)%Q).
  { unfold F2Q.
    transitivity (X * inject_Z (Zpos my) * (pow2 e' * pow2 ey))%Q; [ring|].
    rewrite HXY, inject_Z_mult, <- pow2_add.
    rewrite (inject_Z_pow2 53) by lia.
    rewrite <- Qmult_assoc, <- pow2_add.
    replace (53 + (e' + ey)) with ex by (unfold e'; lia). reflexivity. }
  pose proof (located_bounds _ _ Hloc) as [L1 L2]. rewrite shr_m_of_loc in L1, L2.
  pose proof (F2Q_binade pq e') as [B1 B2]. unfold F2Q in B1, B2.
  pose proof (pow2_pos e') as Hpe.
  pose proof (F2Q_pos my ey) as Hpy.
  assert (HB1 : (pow2 (Zpos (digits2_pos pq) - 1 + e') <= X * pow2 e')%Q) by nra.
  exists mz, ez. split.
  { unfold div, SFdiv. rewrite Hcore. exact Hres. }
  split; [exact Hnorm|]. split; [lia|]. split.
  { rewrite half_ulp_relative in Hlo, Hhi.
    unfold u64 in *.
    assert (F1 : ((1 - (1 # 9007199254740992)) * (X * pow2 e') <= F2Q mz ez)%Q) by lra.
    assert (F2 : (F2Q mz ez <= (1 + (1 # 9007199254740992)) * (X * pow2 e'))%Q) by lra.
    rewrite <- HV. split; nra. }
  intros k e Hk Hke.
  assert (Hke' : (X * pow2 e' == F2Q k e)%Q).
  { rewrite <- HV in Hke.
    apply (proj1 (Qmult_inj_r _ _ (F2Q my ey) ltac:(lra))) in Hke.
    symmetry. exact Hke. }
  assert (HB2 : (X * pow2 e' < pow2 (Zpos (digits2_pos pq) + e'))%Q).
  { pose proof (digits2_pos_bounds pq) as [_ P2].
    assert (P2' : (inject_Z (Zpos pq) + 1 <= pow2 (Zpos (digits2_pos pq)))%Q).
    { rewrite <- inject_Z_pow2 by lia.
      change 1%Q with (inject_Z 1). rewrite <- inject_Z_plus, <- Zle_Qle. lia. }
    rewrite pow2_add. nra. }
  pose proof (F2Q_binade k e) as [K1 K2]. rewrite Hk in K1, K2.
  assert (Ee : e = Zpos (digits2_pos pq) + e' - 53).
  { assert (Zpos (digits2_pos pq) - 1 + e' < 53 + e)
      by (apply pow2_lt_inv; lra).
    assert (53 - 1 + e < Zpos (digits2_pos pq) + e')
      by (apply pow2_lt_inv; lra).
    lia. }
  rewrite Ee. apply Hexact. rewrite <- Ee. exact Hke'.
Qed.

Lemma Pos_iter_xO (m p : positive) :
  Zpos (Pos.iter xO m p) = Zpos m * 2 ^ Zpos p.
Proof.
  induction p as [|p IH] using Pos.peano_ind.
  - simpl. lia.
  - rewrite Pos.iter_succ, Pos2Z.inj_succ, Z.pow_succ_r by lia.
    change (Zpos (Pos.iter xO m p)~0) with (2 * Zpos (Pos.iter xO m p)).
    rewrite IH. ring.
Qed.

Lemma digits2_pos_shl (m p : positive) :
  Zpos (digits2_pos (Pos.iter xO m p)) = Zpos (digits2_pos m) + Zpos p.
Proof.
  apply digits2_pos_unique. rewrite Pos_iter_xO.
  pose proof (digits2_pos_bounds m) as [Hlo Hhi].
  replace (Zpos (digits2_pos m) + Zpos p - 1)
    with (Zpos (digits2_pos m) - 1 + Zpos p) by lia.
  pose proof (digits2_pos_size m).
  rewrite !Z.pow_add_r by lia.
  assert (0 < 2 ^ Zpos p) by (apply Z.pow_pos_nonneg; lia).
  split; nia.
Qed.

Lemma F2Q_shl (m p : positive) (e : Z) :
  (F2Q (Pos.iter xO m p) (e - Zpos p) == F2Q m e)%Q.
Proof.
  unfold F2Q. rewrite Pos_iter_xO, inject_Z_mult.
  rewrite (inject_Z_pow2 (Zpos p)) by lia.
  rewrite <- Qmult_assoc, <- pow2_add.
  replace (Zpos p + (e - Zpos p)) with e by lia. reflexivity.
Qed.

(** Aligning a mantissa to a smaller exponent keeps the value. *)
Lemma shl_align_value (mx : positive) (ex ex' : Z) :
  (F2Q (fst (shl_align mx ex ex')) (snd (shl_align mx ex ex')) == F2Q mx ex)%Q
  /\ (ex' <= ex -> snd (shl_align mx ex ex') = ex')
  /\ (ex < ex' -> snd (shl_align mx ex ex') = ex)
  /\ Zpos (digits2_pos (fst (shl_align mx ex ex')))
     = Zpos (digits2_pos mx) + (ex - snd (shl_align mx ex ex')).
Proof.
  unfold shl_align. destruct (ex' - ex) as [|d|d] eqn:E; simpl.
  - split; [reflexivity|]. repeat split; lia.
  - split; [reflexivity|]. repeat split; lia.
  - replace ex' with (ex - Zpos d) by lia.
    split; [apply F2Q_shl|]. split; [lia|]. split; [lia|].
    rewrite digits2_pos_shl. lia.
Qed.

(** Rounding a representable value returns it. *)
Lemma binary_round_exact (sx : bool) (mx : positive) (ex : Z) (k : positive) (e : Z) :
  normal53 k -> -1074 <= e <= 970 ->
  (F2Q mx ex == F2Q k e)%Q ->
  binary_round prec emax sx mx ex = S754_finite sx k e.
Proof.
  intros Hk He HV. unfold binary_round.
  pose proof (F2Q_binade mx ex) as [A1 A2].
  pose proof (F2Q_binade k e) as [B1 B2]. rewrite Hk in B1, B2.
  assert (Hde : Zpos (digits2_pos mx) + ex = 53 + e).
  { assert (Zpos (digits2_pos mx) - 1 + ex < 53 + e)
      by (apply pow2_lt_inv; lra).
    assert (53 - 1 + e < Zpos (digits2_pos mx) + ex)
      by (apply pow2_lt_inv; lra).
    lia. }
  rewrite Hde, fexp_normal by lia.
  replace (53 + e - 53) with e by lia.
  pose proof (shl_align_value mx ex e) as (V & S & S' & D).
  destruct (shl_align mx ex e) as [mz ez]. cbn [fst snd] in V, S, S', D.
  apply binary_round_aux_exact; try assumption.
  - destruct (Z_le_gt_dec e ex) as [Hle|Hgt].
    + rewrite S in D by exact Hle. lia.
    + rewrite S' in D by lia. lia.
  - rewrite V. exact HV.
Qed.

Lemma F2Q_0 (p : positive) : (F2Q p 0 == inject_Z (Zpos p))%Q.
Proof. unfold F2Q. change (pow2 0) with 1%Q. ring. Qed.

(** An integer below [2^53] is a Number: its normal form. *)
Lemma of_Z_normal (n : Z) :
  0 < n < 2 ^ 53 ->
  exists (k : positive) (e : Z),
    of_Z n = S754_finite false k e
    /\ normal53 k
    /\ -52 <= e <= 0
    /\ Zpos k = n * 2 ^ (- e)
    /\ (F2Q k e == inject_Z n)%Q.
Proof.
  intros [Hpos Hlt]. destruct n as [|p|p]; try lia.
  pose proof (digits2_pos_bounds p) as [Hlo Hhi].
  pose proof (digits2_pos_size p) as Hsz.
  assert (Hd : Zpos (digits2_pos p) <= 53).
  { assert (Zpos (digits2_pos p) - 1 < 53)
      by (apply (Z.pow_lt_mono_r_iff 2); lia). lia. }
  unfold of_Z, binary_normalize.
  destruct (Z.eq_dec (Zpos (digits2_pos p)) 53) as [E|NE].
  - exists p, 0. split.
    { apply binary_round_exact; [exact E|lia|reflexivity]. }
    split; [exact E|]. split; [lia|]. split; [simpl; lia|]. apply F2Q_0.
  - destruct (53 - Zpos (digits2_pos p)) as [|s|s] eqn:Es; try lia.
    exists (Pos.iter xO p s), (- Zpos s).
    assert (V : (F2Q (Pos.iter xO p s) (- Zpos s) == F2Q p 0)%Q)
      by (apply (F2Q_shl p s 0)).
    split.
    { apply binary_round_exact; [|lia|symmetry; exact V].
      unfold normal53. rewrite digits2_pos_shl. lia. }
    split; [unfold normal53; rewrite digits2_pos_shl; lia|].
    split; [lia|].
    split; [rewrite Pos_iter_xO, Z.opp_involutive; reflexivity|].
    rewrite V. apply F2Q_0.
Qed.

Lemma of_Z_0 : of_Z 0 = S754_zero false.
Proof. reflexivity. Qed.

(** Adding two positive Numbers whose sum is representable gives the
    sum. *)
Lemma add_exact (mx my : positive) (ex ey : Z) (k : positive) (e : Z) :
  normal53 k -> -1074 <= e <= 970 ->
  (F2Q mx ex + F2Q my ey == F2Q k e)%Q ->
  add (S754_finite false mx ex) (S754_finite false my ey)
  = S754_finite false k e.
Proof.
  intros Hk He HV. unfold add, SFadd. cbn [cond_Zopp].
  set (ez := Z.min ex ey).
  pose proof (shl_align_value mx ex ez) as (V1 & S1 & _ & _).
  pose proof (shl_align_value my ey ez) as (V2 & S2 & _ & _).
  rewrite S1 in V1 by (unfold ez; lia). rewrite S2 in V2 by (unfold ez; lia).
  set (a := fst (shl_align mx ex ez)) in *.
  set (b := fst (shl_align my ey ez)) in *.
  change (Zpos a + Zpos b) with (Zpos (a + b)).
  unfold binary_normalize.
  apply binary_round_exact; [exact Hk|exact He|].
  rewrite <- HV, <- V1, <- V2. unfold F2Q.
  rewrite Pos2Z.inj_add, inject_Z_plus. ring.
Qed.

Lemma of_Z_add (a b : Z) :
  0 <= a -> 0 <= b -> a + b < 2 ^ 53 ->
  add (of_Z a) (of_Z b) = of_Z (a + b).
Proof.
  intros Ha Hb Hab.
  destruct (Z.eq_dec a 0) as [->|Na].
  { rewrite of_Z_0, Z.add_0_l.
    destruct (Z.eq_dec b 0) as [->|Nb]; [reflexivity|].
    destruct (of_Z_normal b ltac:(lia)) as (k & e & -> & _). reflexivity. }
  destruct (Z.eq_dec b 0) as [->|Nb].
  { rewrite of_Z_0, Z.add_0_r.
    destruct (of_Z_normal a ltac:(lia)) as (k & e & -> & _). reflexivity. }
  destruct (of_Z_normal a ltac:(lia)) as (ka & ea & -> & _ & _ & _ & Va).
  destruct (of_Z_normal b ltac:(lia)) as (kb & eb & -> & _ & _ & _ & Vb).
  destruct (of_Z_normal (a + b) ltac:(lia)) as (k & e & -> & Hk & He & _ & V).
  apply add_exact; [exact Hk|lia|].
  rewrite Va, Vb, V, inject_Z_plus. reflexivity.
Qed.

Lemma ceil4_spec (n : Z) : 4 * (ceil4 n - 1) < n <= 4 * ceil4 n.
Proof. unfold ceil4. Z.div_mod_to_equations. lia. Qed.

Lemma of_Z_4 : of_Z 4 = S754_finite false 4503599627370496 (-50).
Proof. reflexivity. Qed.

(** [Math.ceil(n / 4)] on an integer Number is the integer ceiling. *)
Lemma ceil_quarter (n : Z) :
  0 <= n < 2 ^ 53 ->
  Math_ceil (div (of_Z n) (of_Z 4)) = of_Z (ceil4 n).
Proof.
  intros [Hn0 Hn].
  destruct (Z.eq_dec n 0) as [->|Nn]; [reflexivity|].
  destruct (of_Z_normal n ltac:(lia)) as (M & E & -> & HM & HE & HMn & HV).
  rewrite of_Z_4.
  destruct (div_correct M 4503599627370496 E (-50) HM eq_refl ltac:(lia))
    as (mz & ez & Hdiv & _ & _ & _ & Hex).
  destruct (Hex M (E - 2) HM) as [-> ->].
  { assert (E4 : (F2Q 4503599627370496 (-50) == 4)%Q) by reflexivity.
    rewrite E4. unfold F2Q.
    replace (E - 2) with (E + -2) by lia. rewrite pow2_add.
    change (pow2 (-2)) with (1 # 4)%Q. ring. }
  rewrite Hdiv.
  destruct (E - 2) as [|p|p] eqn:Ep; try lia.
  unfold Math_ceil, integral, of_Z. f_equal.
  assert (Hp : Zpos p = 2 - E) by lia.
  rewrite Hp, HMn.
  replace (2 - E) with (2 + - E) by lia.
  rewrite Z.pow_add_r by lia. change (2 ^ 2) with 4.
  rewrite <- Z.mul_opp_l.
  assert (0 < 2 ^ (- E)) by (apply Z.pow_pos_nonneg; lia).
  rewrite Z.div_mul_cancel_r by lia.
  unfold ceil4. Z.div_mod_to_equations. lia.
Qed.

Lemma round6_exact_cost (t : Z) : round6 (exact_cost t) = (3 * t + 8) / 16.
Proof.
  unfold round6, exact_cost.
  assert (E : (inject_Z t / 1000000 * (1875 # 10000) * 1000000 + (1 # 2)
               == (3 * t + 8) # 16)%Q).
  { rewrite (Qmake_Qdiv (3 * t + 8) 16), inject_Z_plus, inject_Z_mult.
    field. }
  rewrite E. reflexivity.
Qed.

Lemma of_Z_million :
  of_Z 1000000 = S754_finite false 8589934592000000 (-33).
Proof. reflexivity. Qed.

Lemma cost_per_million :
  Tracking.COST_PER_MILLION_TOKENS = S754_finite false 6755399441055744 (-55).
Proof. reflexivity. Qed.

Lemma F2Q_million : (F2Q 8589934592000000 (-33) == 1000000)%Q.
Proof. reflexivity. Qed.

Lemma F2Q_cost : (F2Q 6755399441055744 (-55) == 3 # 16)%Q.
Proof. reflexivity. Qed.

(** The value [costUsd] of [estimateApiCost] and the product
    [costUsd * 1_000_000]: normal Numbers, the product below one half of
    [2^53] and within a sixteenth of [3 t / 16]. *)
Lemma scaled_cost (t : Z) :
  1 <= t <= 10 ^ 15 ->
  exists (m2 : positive) (e2 : Z) (m : positive) (p : positive),
    costUsd_of (of_Z t) = S754_finite false m2 e2
    /\ (3 * inject_Z t - 1 < 16 * (F2Q m2 e2 * 1000000)
        /\ 16 * (F2Q m2 e2 * 1000000) < 3 * inject_Z t + 1)%Q
    /\ mul (costUsd_of (of_Z t)) (of_Z 1000000) = S754_finite false m (Zneg p)
    /\ (3 * t - 1) * 2 ^ Zpos p < 16 * Zpos m < (3 * t + 1) * 2 ^ Zpos p.
Proof.
  intros Ht. change (10 ^ 15) with 1000000000000000 in Ht.
  unfold costUsd_of.
  destruct (of_Z_normal t) as (k0 & e0 & -> & Hk0 & He0 & Hk0t & V0).
  { change (2 ^ 53) with 9007199254740992. lia. }
  assert (He0' : e0 <= -3).
  { destruct (Z_le_gt_dec e0 (-3)) as [H|H]; [exact H|exfalso].
    pose proof (digits2_pos_bounds k0) as [Hlo _]. rewrite Hk0 in Hlo.
    change (2 ^ (53 - 1)) with 4503599627370496 in Hlo.
    assert (2 ^ (- e0) <= 2 ^ 2) by (apply Z.pow_le_mono_r; lia).
    change (2 ^ 2) with 4 in *. nia. }
  rewrite of_Z_million, cost_per_million.
  destruct (div_correct k0 8589934592000000 e0 (-33) Hk0 eq_refl ltac:(lia))
    as (m1 & e1 & -> & Hm1 & He1 & [L1 U1] & _).
  destruct (mul_correct m1 6755399441055744 e1 (-55) Hm1 eq_refl ltac:(lia))
    as (m2 & e2 & -> & Hm2 & He2 & [L2 U2]).
  destruct (mul_correct m2 8589934592000000 e2 (-33) Hm2 eq_refl ltac:(lia))
    as (m3 & e3 & -> & Hm3 & He3 & [L3 U3]).
  rewrite F2Q_million in L1, U1, L3, U3. rewrite F2Q_cost in L2, U2.
  rewrite V0 in L1, U1. unfold u64 in *.
  assert (T1 : (1 <= inject_Z t)%Q)
    by (change 1%Q with (inject_Z 1); rewrite <- Zle_Qle; lia).
  assert (T2 : (inject_Z t <= 1000000000000000)%Q)
    by (change 1000000000000000%Q with (inject_Z 1000000000000000);
        rewrite <- Zle_Qle; lia).
  destruct e3 as [|p|p]; try lia.
  exists m2, e2, m3, p. split; [reflexivity|].
  split; [split; lra|]. split; [reflexivity|].
  assert (S3 : (F2Q m3 (Zneg p) * inject_Z (2 ^ Zpos p) == inject_Z (Zpos m3))%Q).
  { unfold F2Q. rewrite (inject_Z_pow2 (Zpos p)) by lia.
    rewrite <- Qmult_assoc, <- pow2_add.
    replace (Z.neg p + Z.pos p) with 0 by lia. change (pow2 0) with 1%Q. ring. }
  assert (HP : (0 < inject_Z (2 ^ Zpos p))%Q).
  { change 0%Q with (inject_Z 0). rewrite <- Zlt_Qlt.
    apply Z.pow_pos_nonneg; lia. }
  assert (B1 : (3 * inject_Z t - 1 < 16 * F2Q m3 (Zneg p))%Q) by lra.
  assert (B2 : (16 * F2Q m3 (Zneg p) < 3 * inject_Z t + 1)%Q) by lra.
  split.
  - replace (3 * t - 1) with (3 * t + -1) by lia.
    rewrite Zlt_Qlt, !inject_Z_mult, inject_Z_plus, inject_Z_mult, <- S3.
    change (inject_Z 3) with 3%Q. change (inject_Z (-1)) with (-1)%Q.
    change (inject_Z 16) with 16%Q. nra.
  - rewrite Zlt_Qlt, !inject_Z_mult, inject_Z_plus, inject_Z_mult, <- S3.
    change (inject_Z 3) with 3%Q. change (inject_Z 1) with 1%Q.
    change (inject_Z 16) with 16%Q. nra.
Qed.

Lemma Qfloor_unique (x : Q) (k : Z) :
  (inject_Z k <= x)%Q -> (x < inject_Z k + 1)%Q -> Qfloor x = k.
Proof.
  intros H1 H2.
  pose proof (Qfloor_le x) as F1. pose proof (Qlt_floor x) as F2.
  rewrite inject_Z_plus in F2. change (inject_Z 1) with 1%Q in F2.
  assert (A : (inject_Z (Qfloor x) < inject_Z (k + 1))%Q)
    by (rewrite inject_Z_plus; change (inject_Z 1) with 1%Q; lra).
  assert (B : (inject_Z k < inject_Z (Qfloor x + 1))%Q)
    by (rewrite inject_Z_plus; change (inject_Z 1) with 1%Q; lra).
  rewrite <- Zlt_Qlt in A, B. lia.
Qed.

(** Away from a tie, rounding the computed [costUsd] and rounding the
    exact cost agree. *)
Lemma round6_costUsd (t : Z) :
  1 <= t <= 10 ^ 15 -> t mod 16 <> 8 ->
  round6 (to_Q (costUsd_of (of_Z t))) = (3 * t + 8) / 16.
Proof.
  intros Ht Hne.
  destruct (scaled_cost t Ht) as (m2 & e2 & _ & _ & -> & [B1 B2] & _).
  set (K := (3 * t + 8) / 16).
  assert (HK : 16 * K + 1 <= 3 * t + 8 <= 16 * K + 15)
    by (unfold K; Z.div_mod_to_equations; lia).
  destruct HK as [HK1 HK2].
  rewrite Zle_Qle, inject_Z_plus, !inject_Z_mult, !inject_Z_plus,
    !inject_Z_mult in HK1, HK2.
  change (inject_Z 16) with 16%Q in *. change (inject_Z 1) with 1%Q in *.
  change (inject_Z 3) with 3%Q in *. change (inject_Z 8) with 8%Q in *.
  change (inject_Z 15) with 15%Q in *.
  unfold round6. cbn [to_Q].
  apply Qfloor_unique; lra.
Qed.

(** Rounding a value within a sixteenth of [3 t / 16]. *)
Lemma round_near_sixteenths (t m P : Z) :
  0 < P ->
  (3 * t - 1) * P < 16 * m < (3 * t + 1) * P ->
  (t mod 16 <> 8 -> (2 * m + P) / (2 * P) = (3 * t + 8) / 16)
  /\ (t mod 16 = 8 ->
      (2 * m + P) / (2 * P) = (3 * t + 8) / 16
      \/ (2 * m + P) / (2 * P) = (3 * t + 8) / 16 - 1).
Proof.
  intros HP [H1 H2].
  set (K := (3 * t + 8) / 16).
  assert (HK : 16 * K <= 3 * t + 8 < 16 * K + 16)
    by (unfold K; Z.div_mod_to_equations; lia).
  assert (Hdiv : forall q, q * (2 * P) <= 2 * m + P < (q + 1) * (2 * P) ->
                           (2 * m + P) / (2 * P) = q).
  { intros q [Hq1 Hq2]. symmetry.
    apply (Z.div_unique _ _ q (2 * m + P - q * (2 * P))); lia. }
  split.
  - intros Hne.
    assert (16 * K <> 3 * t + 8) by (Z.div_mod_to_equations; lia).
    apply Hdiv. split; nia.
  - intros Heq.
    assert (16 * K = 3 * t + 8) by (Z.div_mod_to_equations; lia).
    destruct (Z_le_gt_dec (K * (2 * P)) (2 * m + P)) as [Hle|Hgt].
    + left. apply Hdiv. split; [exact Hle|nia].
    + right. apply Hdiv. split; nia.
Qed.

Lemma estimateApiCost_0 : Tracking.estimateApiCost (of_Z 0) = of_Z 0.
Proof. reflexivity. Qed.

Lemma estimateApiCost_million :
  Tracking.estimateApiCost (of_Z 1000000) = of_dyadic 3 (-4).
Proof. vm_compute. reflexivity. Qed.

(** [estimateApiCost] on an integer token count: the Number written
    [k] millionths, where [k] is [3 t / 16] rounded. *)
Lemma estimateApiCost_millionths (t : Z) :
  1 <= t <= 10 ^ 15 ->
  exists k : Z,
    Tracking.estimateApiCost (of_Z t) = decimal6 k
    /\ (t mod 16 <> 8 -> k = (3 * t + 8) / 16)
    /\ (t mod 16 = 8 -> k = (3 * t + 8) / 16 \/ k = (3 * t + 8) / 16 - 1).
Proof.
  intros Ht.
  destruct (scaled_cost t Ht) as (m2 & e2 & m & p & _ & _ & Hx & Hb).
  assert (HP : 0 < 2 ^ Zpos p) by (apply Z.pow_pos_nonneg; lia).
  destruct (round_near_sixteenths t (Zpos m) (2 ^ Zpos p) HP Hb) as [Hn Htie].
  exists ((2 * Zpos m + 2 ^ Zpos p) / (2 * 2 ^ Zpos p)).
  split; [|split; assumption].
  change (Tracking.estimateApiCost (of_Z t))
    with (div (Math_round (mul (costUsd_of (of_Z t)) (of_Z 1000000)))
              (of_Z 1000000)).
  rewrite Hx.
  unfold Math_round, integral, decimal6, of_Z.
  rewrite Pos2Z.inj_succ, Z.pow_succ_r by lia. reflexivity.
Qed.

(* ===================================================================== *)
(** ** The estimators *)
(* ===================================================================== *)

Lemma to_Q_of_Z (n : Z) : 0 <= n < 2 ^ 53 -> (to_Q (of_Z n) == inject_Z n)%Q.
Proof.
  intros [H0 H]. destruct (Z.eq_dec n 0) as [->|Hn]; [reflexivity|].
  destruct (of_Z_normal n ltac:(lia)) as (k & e & -> & _ & _ & _ & V).
  exact V.
Qed.

Lemma ceil4_bounds (n : Z) : 0 <= n < 2 ^ 53 -> 0 <= ceil4 n <= 2 ^ 51.
Proof.
  change (2 ^ 53) with 9007199254740992.
  change (2 ^ 51) with 2251799813685248.
  intros H. unfold ceil4. Z.div_mod_to_equations. lia.
Qed.

Lemma ceil4_sum (x y z : Z) :
  ceil4 (x + y + z) <= ceil4 x + ceil4 y + ceil4 z.
Proof. unfold ceil4. Z.div_mod_to_equations. lia. Qed.

(** C3.  For all strings [a], [b], [c] (of less than 2^53 code units, as
    every JavaScript string is), [calculateTokenUsage a b c] returns
    [systemTokens = ceil (len a / 4)], [userTokens = ceil (len b / 4)],
    [responseTokens = ceil (len c / 4)] and [totalTokens] equal to the sum
    of the three ceilings, where the ceiling of [n / 4] is the least [k]
    with [n <= 4 k]; the sum is at least the ceiling of the combined
    length, and an empty string contributes 0 tokens. *)
Theorem calculateTokenUsage_spec (a b c : JsString) :
  len a < 2 ^ 53 -> len b < 2 ^ 53 -> len c < 2 ^ 53 ->
  Tracking.systemTokens (Tracking.calculateTokenUsage a b c)
  = of_Z (ceil4 (len a))
  ∧ Tracking.userTokens (Tracking.calculateTokenUsage a b c)
    = of_Z (ceil4 (len b))
  ∧ Tracking.responseTokens (Tracking.calculateTokenUsage a b c)
    = of_Z (ceil4 (len c))
  ∧ Tracking.totalTokens (Tracking.calculateTokenUsage a b c)
    = of_Z (ceil4 (len a) + ceil4 (len b) + ceil4 (len c))
  ∧ (to_Q (Tracking.totalTokens (Tracking.calculateTokenUsage a b c))
     == inject_Z (ceil4 (len a) + ceil4 (len b) + ceil4 (len c)))%Q
  ∧ (4 * (ceil4 (len a) - 1) < len a <= 4 * ceil4 (len a))
  ∧ (4 * (ceil4 (len b) - 1) < len b <= 4 * ceil4 (len b))
  ∧ (4 * (ceil4 (len c) - 1) < len c <= 4 * ceil4 (len c))
  ∧ ceil4 (len a + len b + len c)
    <= ceil4 (len a) + ceil4 (len b) + ceil4 (len c)
  ∧ (a = [] -> Tracking.systemTokens (Tracking.calculateTokenUsage a b c)
               = of_Z 0)
  ∧ (b = [] -> Tracking.userTokens (Tracking.calculateTokenUsage a b c)
               = of_Z 0)
  ∧ (c = [] -> Tracking.responseTokens (Tracking.calculateTokenUsage a b c)
               = of_Z 0).
Proof.
  intros Ha Hb Hc.
  assert (Ha0 : 0 <= len a) by (unfold len; lia).
  assert (Hb0 : 0 <= len b) by (unfold len; lia).
  assert (Hc0 : 0 <= len c) by (unfold len; lia).
  pose proof (ceil4_bounds (len a) ltac:(lia)) as Ba.
  pose proof (ceil4_bounds (len b) ltac:(lia)) as Bb.
  pose proof (ceil4_bounds (len c) ltac:(lia)) as Bc.
  change (2 ^ 51) with 2251799813685248 in *.
  assert (Es : Tracking.systemTokens (Tracking.calculateTokenUsage a b c)
               = of_Z (ceil4 (len a))).
  { apply (ceil_quarter (len a)). lia. }
  assert (Eu : Tracking.userTokens (Tracking.calculateTokenUsage a b c)
               = of_Z (ceil4 (len b))).
  { apply (ceil_quarter (len b)). lia. }
  assert (Er : Tracking.responseTokens (Tracking.calculateTokenUsage a b c)
               = of_Z (ceil4 (len c))).
  { apply (ceil_quarter (len c)). lia. }
  assert (Et : Tracking.totalTokens (Tracking.calculateTokenUsage a b c)
               = of_Z (ceil4 (len a) + ceil4 (len b) + ceil4 (len c))).
  { change (Tracking.totalTokens (Tracking.calculateTokenUsage a b c))
      with (add (add (Tracking.systemTokens (Tracking.calculateTokenUsage a b c))
                     (Tracking.userTokens (Tracking.calculateTokenUsage a b c)))
                (Tracking.responseTokens (Tracking.calculateTokenUsage a b c))).
    rewrite Es, Eu, Er.
    rewrite !of_Z_add; try lia; try reflexivity.
    all: change (2 ^ 53) with 9007199254740992; lia. }
  split; [exact Es|]. split; [exact Eu|]. split; [exact Er|].
  split; [exact Et|].
  split.
  { rewrite Et. apply to_Q_of_Z.
    change (2 ^ 53) with 9007199254740992. lia. }
  split; [apply ceil4_spec|]. split; [apply ceil4_spec|].
  split; [apply ceil4_spec|]. split; [apply ceil4_sum|].
  split; [|split]; intros ->.
  - exact Es.
  - exact Eu.
  - exact Er.
Qed.

Lemma calculateTokenUsage_spec_witness :
  Tracking.totalTokens
    (Tracking.calculateTokenUsage (lit "abcde") (lit "a") (lit ""))
  = of_Z 3
  ∧ ceil4 (5 + 1 + 0) = 2.
Proof.
  split; [|reflexivity].
  apply (calculateTokenUsage_spec (lit "abcde") (lit "a") (lit ""));
    reflexivity.
Defined.

(** The three examples of the specification. *)
Example calculateTokenUsage_empty :
  Tracking.calculateTokenUsage (lit "") (lit "") (lit "")
  = {| Tracking.totalTokens := of_Z 0;
       Tracking.systemTokens := of_Z 0;
       Tracking.userTokens := of_Z 0;
       Tracking.responseTokens := of_Z 0 |}.
Proof. reflexivity. Qed.

Example calculateTokenUsage_abcd :
  Tracking.calculateTokenUsage (lit "abcd") (lit "") (lit "")
  = {| Tracking.totalTokens := of_Z 1;
       Tracking.systemTokens := of_Z 1;
       Tracking.userTokens := of_Z 0;
       Tracking.responseTokens := of_Z 0 |}.
Proof. reflexivity. Qed.

Example calculateTokenUsage_abcde :
  Tracking.calculateTokenUsage (lit "abcde") (lit "") (lit "")
  = {| Tracking.totalTokens := of_Z 2;
       Tracking.systemTokens := of_Z 2;
       Tracking.userTokens := of_Z 0;
       Tracking.responseTokens := of_Z 0 |}.
Proof. reflexivity. Qed.

(** C4, counterexample.  296 tokens cost exactly 55.5 millionths of a
    dollar, which rounds to 56 millionths; the computed [costUsd] is just
    below that and the result is 55 millionths.  Reading the claim as the
    rounding of the computed [costUsd] does not save it: for 56 tokens
    [costUsd] is below 10.5 millionths, which rounds to 10, while the
    product [costUsd * 1_000_000] is exactly 10.5 and the result is 11
    millionths. *)
Lemma estimateApiCost_296 :
  ((exact_cost 296 * 1000000 == 111 # 2)%Q
   ∧ round6 (exact_cost 296) = 56
   ∧ Tracking.estimateApiCost (of_Z 296) = decimal6 55
   ∧ Tracking.estimateApiCost (of_Z 296) ≠ decimal6 (round6 (exact_cost 296)))
  ∧ (round6 (to_Q (costUsd_of (of_Z 56))) = 10
     ∧ Tracking.estimateApiCost (of_Z 56) = decimal6 11
     ∧ Tracking.estimateApiCost (of_Z 56)
       ≠ decimal6 (round6 (to_Q (costUsd_of (of_Z 56))))).
Proof.
  split.
  - split; [reflexivity|]. split; [reflexivity|].
    split; [vm_compute; reflexivity|].
    vm_compute. discriminate.
  - split; [vm_compute; reflexivity|].
    split; [vm_compute; reflexivity|].
    vm_compute. discriminate.
Qed.

(** C4, amended.  For every integer [t] from 0 to 10^15 that is not a
    tie ([t mod 16 <> 8], that is [t * 0.1875] is not halfway between two
    integers), [estimateApiCost t] is [t / 1_000_000 * 0.1875] rounded to
    6 decimal places, whether the exact cost or the computed [costUsd] is
    rounded; at a tie it is that rounding or one millionth less.
    In particular [estimateApiCost 1_000_000 = 0.1875] and
    [estimateApiCost 0 = 0]. *)
Theorem estimateApiCost_spec (t : Z) :
  0 <= t <= 10 ^ 15 ->
  (t mod 16 <> 8 ->
   Tracking.estimateApiCost (of_Z t) = decimal6 (round6 (exact_cost t))
   ∧ round6 (to_Q (costUsd_of (of_Z t))) = round6 (exact_cost t))
  ∧ (t mod 16 = 8 ->
     Tracking.estimateApiCost (of_Z t) = decimal6 (round6 (exact_cost t))
     ∨ Tracking.estimateApiCost (of_Z t)
       = decimal6 (round6 (exact_cost t) - 1))
  ∧ Tracking.estimateApiCost (of_Z 1000000) = of_dyadic 3 (-4)
  ∧ Tracking.estimateApiCost (of_Z 0) = of_Z 0.
Proof.
  intros Ht. rewrite round6_exact_cost.
  split; [|split; [|split; [apply estimateApiCost_million
                           |apply estimateApiCost_0]]].
  - intros Hne. destruct (Z.eq_dec t 0) as [->|Hn].
    { split; reflexivity. }
    split.
    + destruct (estimateApiCost_millionths t ltac:(lia)) as (k & -> & Hk & _).
      rewrite (Hk Hne). reflexivity.
    + apply round6_costUsd; [lia|exact Hne].
  - intros Heq. destruct (Z.eq_dec t 0) as [->|Hn]; [discriminate Heq|].
    destruct (estimateApiCost_millionths t ltac:(lia)) as (k & -> & _ & Hk).
    destruct (Hk Heq) as [->| ->]; [left|right]; reflexivity.
Qed.

Lemma estimateApiCost_spec_witness :
  Tracking.estimateApiCost (of_Z 1234) = decimal6 (round6 (exact_cost 1234))
  ∧ round6 (exact_cost 1234) = 231.
Proof.
  split; [|reflexivity].
  apply (proj1 (estimateApiCost_spec 1234 ltac:(vm_compute; split; discriminate))).
  vm_compute. discriminate.
Defined.

(** The bound on [t] is needed: beyond 10^15 the three rounding errors
    can cross a rounding boundary away from a tie. *)
Example estimateApiCost_beyond_bound :
  1747884559425261 mod 16 ≠ 8
  ∧ Tracking.estimateApiCost (of_Z 1747884559425261)
    ≠ decimal6 (round6 (exact_cost 1747884559425261)).
Proof. split; vm_compute; discriminate. Qed.

(** A tie that is rounded as the exact cost is: 8 tokens cost 1.5
    millionths and the result is 2 millionths. *)
Example estimateApiCost_8 :
  8 mod 16 = 8
  ∧ Tracking.estimateApiCost (of_Z 8) = decimal6 (round6 (exact_cost 8))
  ∧ round6 (exact_cost 8) = 2.
Proof. repeat split; vm_compute; reflexivity. Qed.

(* ===================================================================== *)
(** ** Further properties of the reporter *)
(* ===================================================================== *)

Ltac norm_console :=
  rewrite <- ?app_assoc; cbn [app];
  rewrite ?drop_app_length, ?drop_all.

(** X1.  A run of [trackMetrics] writes one of three things to the
    console: a single error line, and then the refresh call was not
    made; the success line alone, and then the refresh call was made and
    fulfilled (whatever its status); or the success line followed by the
    line of a skipped refresh, and then the refresh call was rejected
    with the error printed. *)
Theorem console_shapes (env : Env) (metricsData : addr) (w : World) :
  (∃ e,
     new_console (Tracking.trackMetrics env metricsData) w = [error_line e]
     ∧ ¬ attempted env Refresh
           (new_events (Tracking.trackMetrics env metricsData) w))
  ∨ (∃ st resp,
       new_console (Tracking.trackMetrics env metricsData) w = [success_line st]
       ∧ last (new_events (Tracking.trackMetrics env metricsData) w)
         = Some (EvFetch (Tracking.refresh_request env) (Fulfilled resp)))
  ∨ (∃ st e,
       new_console (Tracking.trackMetrics env metricsData) w
       = [success_line st; skipped_line e]
       ∧ last (new_events (Tracking.trackMetrics env metricsData) w)
         = Some (EvFetch (Tracking.refresh_request env) (Rejected e))).
Proof.
  unfold attempted, error_line, success_line, skipped_line.
  run; norm_trace; norm_console; norm_steps.
  all: first
         [ left; eexists; split; [reflexivity|absent]
         | right; left; eexists _, _; split; reflexivity
         | right; right; eexists _, _; split; reflexivity ].
Qed.

(** X2.  A run that reaches the refresh made exactly four calls: the
    import of the database module, the INSERT with the values of the
    record, the publish request for that record, answered with a 2xx
    status, and the refresh request. *)
Theorem refresh_run_shape (env : Env) (metricsData : addr) (w : World) :
  attempted env Refresh (new_events (Tracking.trackMetrics env metricsData) w) ->
  ∃ md rows resp r,
    objects w !! metricsData = Some md
    ∧ ok resp = true
    ∧ new_events (Tracking.trackMetrics env metricsData) w
      = [EvImport (Fulfilled tt);
         EvSql (Database.insert_values (Tracking.metrics_input md))
               (Fulfilled rows);
         EvFetch (Tracking.track_request env md) (Fulfilled resp);
         EvFetch (Tracking.refresh_request env) r].
Proof.
  unfold attempted.
  run; norm_trace; norm_steps; intros Hin.
  all: try (exfalso; revert Hin; absent).
  all: eexists _, _, _, _; split; [reflexivity|]; split; [|reflexivity].
  all: assumption.
Qed.

Lemma refresh_run_shape_witness :
  ∃ md rows resp r,
    new_events (Tracking.trackMetrics env_ok 1%positive) w0
    = [EvImport (Fulfilled tt);
       EvSql (Database.insert_values (Tracking.metrics_input md))
             (Fulfilled rows);
       EvFetch (Tracking.track_request env_ok md) (Fulfilled resp);
       EvFetch (Tracking.refresh_request env_ok) r].
Proof.
  destruct (refresh_run_shape env_ok 1%positive w0)
    as (md & rows & resp & r & _ & _ & H).
  - unfold attempted. vm_compute.
    apply list_elem_of_further, list_elem_of_further, list_elem_of_here.
  - exists md, rows, resp, r. exact H.
Defined.

(** X3.  Every run starts with the import of the database module,
    imports it once, and makes at most four calls in all. *)
Theorem calls_bounded (env : Env) (metricsData : addr) (w : World) :
  (∃ r, head (new_events (Tracking.trackMetrics env metricsData) w)
        = Some (EvImport r))
  ∧ (1 <= length (new_events (Tracking.trackMetrics env metricsData) w) <= 4)%nat
  ∧ (∀ r', EvImport r'
           ∉ tail (new_events (Tracking.trackMetrics env metricsData) w)).
Proof.
  run; norm_trace.
  all: split; [eexists; reflexivity|]; split; [cbn; lia|].
  all: intros r' Hin; cbn in Hin; elim_in Hin; discriminate Hin.
Qed.

(** X7.  After a 2xx answer to the publish request the body decides:
    a body that is not JSON, or the JSON [null], ends the run with an
    error line and no refresh; any other JSON value is a success, the
    line shows its [status] property ([undefined] when it has none) and
    the refresh is attempted. *)
Theorem publish_body_handling
  (env : Env) (metricsData : addr) (w : World) (req : Request) (resp : Response) :
  EvFetch req (Fulfilled resp)
    ∈ new_events (Tracking.trackMetrics env metricsData) w ->
  step_of env (EvFetch req (Fulfilled resp)) = Some Publish ->
  ok resp = true ->
  match json resp with
  | Rejected e =>
      new_console (Tracking.trackMetrics env metricsData) w = [error_line e]
      ∧ ¬ attempted env Refresh
            (new_events (Tracking.trackMetrics env metricsData) w)
  | Fulfilled JNull =>
      new_console (Tracking.trackMetrics env metricsData) w
      = [error_line TypeError]
      ∧ ¬ attempted env Refresh
            (new_events (Tracking.trackMetrics env metricsData) w)
  | Fulfilled v =>
      head (new_console (Tracking.trackMetrics env metricsData) w)
      = Some (success_line (json_property v "status"))
      ∧ attempted env Refresh
          (new_events (Tracking.trackMetrics env metricsData) w)
  end.
Proof.
  unfold attempted, error_line, success_line.
  run; norm_trace; norm_console; norm_steps; intros Hin Hstep Hok;
    elim_in Hin; try discriminate Hin.
  all: try (injection Hin as -> ->).
  all: try (rewrite step_of_refresh in Hstep; discriminate Hstep).
  all: try congruence.
  all: repeat match goal with
         | H1 : json ?r = _, H2 : json ?r = _ |- _ =>
             rewrite H1 in H2; try discriminate H2;
             first [injection H2 as <- | clear H2]
         end.
  all: split; first [reflexivity | absent
                    | apply list_elem_of_further, list_elem_of_further,
                        list_elem_of_here ].
Qed.

Lemma publish_body_handling_witness :
  new_console (Tracking.trackMetrics env_bad_body 1%positive) w0
  = [error_line SyntaxError].
Proof.
  apply (publish_body_handling env_bad_body 1%positive w0
           (Tracking.track_request env_bad_body md0)
           {| status := 200; json := Rejected SyntaxError |}).
  - vm_compute.
    apply list_elem_of_further, list_elem_of_further, list_elem_of_here.
  - apply step_of_track.
  - reflexivity.
Defined.

(** X4.  When the database module cannot be imported, the import is
    the only call of the run: nothing is stored or sent, and the error
    of the import is the one line on the console. *)
Theorem import_failure_ends_run
  (env : Env) (metricsData : addr) (w : World) (e : JsError) :
  EvImport (Rejected e) ∈ new_events (Tracking.trackMetrics env metricsData) w ->
  new_events (Tracking.trackMetrics env metricsData) w = [EvImport (Rejected e)]
  ∧ new_console (Tracking.trackMetrics env metricsData) w = [error_line e].
Proof.
  unfold error_line.
  run; norm_trace; norm_console; intros Hin; elim_in Hin; try discriminate Hin.
  injection Hin as ->. split; reflexivity.
Qed.

Lemma import_failure_ends_run_witness :
  new_events (Tracking.trackMetrics env_no_module 1%positive) w0
  = [EvImport (Rejected ModuleNotFound)].
Proof.
  apply (import_failure_ends_run env_no_module 1%positive w0 ModuleNotFound).
  vm_compute. apply list_elem_of_here.
Defined.

(** X5.  Called with no record ([undefined]), [trackMetrics] imports
    the database module and stops there: the TypeError of reading a
    property of [undefined] (or the import's own error) is logged, and no
    SQL or HTTP call is made. *)
Theorem missing_record_is_logged
  (env : Env) (metricsData : addr) (w : World) :
  objects w !! metricsData = None ->
  ∃ r,
    new_events (Tracking.trackMetrics env metricsData) w = [EvImport r]
    ∧ new_console (Tracking.trackMetrics env metricsData) w
      = [error_line match r with
                    | Fulfilled _ => TypeError
                    | Rejected e => e
                    end].
Proof.
  unfold error_line. intros Hnone.
  run; norm_trace; norm_console; try congruence.
  all: eexists; split; reflexivity.
Qed.

Lemma missing_record_is_logged_witness :
  ∃ r,
    new_events (Tracking.trackMetrics env_ok 1%positive) w_empty = [EvImport r].
Proof.
  destruct (missing_record_is_logged env_ok 1%positive w_empty) as (r & H & _).
  - reflexivity.
  - exists r. exact H.
Defined.

(** X6.  When the publish request is rejected (network error or
    timeout), its error is the only console line, and the run consists of
    the import, the fulfilled INSERT and that request. *)
Theorem publish_rejection_is_logged
  (env : Env) (metricsData : addr) (w : World) (req : Request) (e : JsError) :
  EvFetch req (Rejected e)
    ∈ new_events (Tracking.trackMetrics env metricsData) w ->
  step_of env (EvFetch req (Rejected e)) = Some Publish ->
  new_console (Tracking.trackMetrics env metricsData) w = [error_line e]
  ∧ ∃ md rows,
      objects w !! metricsData = Some md
      ∧ new_events (Tracking.trackMetrics env metricsData) w
        = [EvImport (Fulfilled tt);
           EvSql (Database.insert_values (Tracking.metrics_input md))
                 (Fulfilled rows);
           EvFetch (Tracking.track_request env md) (Rejected e)].
Proof.
  unfold error_line.
  run; norm_trace; norm_console; intros Hin Hstep;
    elim_in Hin; try discriminate Hin.
  all: try (injection Hin as -> ->).
  all: try (rewrite step_of_refresh in Hstep; discriminate Hstep).
  all: split; [reflexivity|]; eexists _, _; split; reflexivity.
Qed.

Lemma publish_rejection_is_logged_witness :
  new_console (Tracking.trackMetrics env_offline 1%positive) w0
  = [error_line (TimeoutError 5000)].
Proof.
  apply (publish_rejection_is_logged env_offline 1%positive w0
           (Tracking.track_request env_offline md0) (TimeoutError 5000)).
  - vm_compute.
    apply list_elem_of_further, list_elem_of_further, list_elem_of_here.
  - apply step_of_track.
Defined.

(** X10.  The first version of [trackMetrics] makes exactly one call,
    the publish request without a timeout, whatever it is given (the
    request has no body when the argument is [undefined]), and writes
    exactly one console line, decided by how that request settled. *)
Theorem v1_single_request (env : Env) (metricsData : addr) (w : World) :
  ∃ r,
    new_events (TrackingV1.trackMetrics env metricsData) w
    = [EvFetch (TrackingV1.track_request env (objects w !! metricsData)) r]
    ∧ new_console (TrackingV1.trackMetrics env metricsData) w
      = [match r with
         | Rejected e => error_line e
         | Fulfilled resp =>
             if ok resp then
               match json resp with
               | Rejected e => error_line e
               | Fulfilled JNull => error_line TypeError
               | Fulfilled v => success_line (json_property v "status")
               end
             else error_line (StatusError (status resp))
         end].
Proof.
  unfold error_line, success_line.
  run; norm_trace; norm_console.
  all: eexists; split; [reflexivity|].
  all: cbn beta iota;
       repeat match goal with
         | H : ok _ = _ |- _ => rewrite H
         | H : json _ = _ |- _ => rewrite H
         end;
       reflexivity.
Qed.

Lemma v1_single_request_witness :
  (∃ r,
     new_events (TrackingV1.trackMetrics env_503 1%positive) w0
     = [EvFetch (TrackingV1.track_request env_503 (Some md0)) r])
  ∧ (∃ r,
       new_events (TrackingV1.trackMetrics env_ok 1%positive) w_empty
       = [EvFetch (TrackingV1.track_request env_ok None) r]
       ∧ new_console (TrackingV1.trackMetrics env_ok 1%positive) w_empty
         = [success_line (Some (JString (lit "success")))]).
Proof.
  split.
  - destruct (v1_single_request env_503 1%positive w0) as (r & H & _).
    exists r. exact H.
  - destruct (v1_single_request env_ok 1%positive w_empty) as (r & H & _).
    exists r. split; [exact H|]. vm_compute. reflexivity.
Defined.

(** X9.  The INSERT of [createAIMetrics] names as many columns as it
    passes values, no column twice, and each column is handed the field
    of the same name as it is, an absent optional field as [undefined].
    The one exception is [appointment_booked], which is handed [false]
    when the field is absent.  A name that is not among the columns is
    handed nothing. *)
Theorem insert_columns_aligned (metrics : AIMetricsInput) :
  length Database.insert_columns = length (Database.insert_values metrics)
  ∧ NoDup Database.insert_columns
  ∧ inserted "business_id" metrics = Some (PString (in_business_id metrics))
  ∧ inserted "conversation_id" metrics
    = Some match in_conversation_id metrics with
           | Some s => PString s
           | None => PUndefined
           end
  ∧ inserted "session_id" metrics = Some (PString (in_session_id metrics))
  ∧ inserted "response_time_ms" metrics
    = Some (PNumber (in_response_time_ms metrics))
  ∧ inserted "success_rate" metrics = Some (PNumber (in_success_rate metrics))
  ∧ inserted "tokens_used" metrics = Some (PNumber (in_tokens_used metrics))
  ∧ inserted "prompt_tokens" metrics
    = Some match in_prompt_tokens metrics with
           | Some x => PNumber x
           | None => PUndefined
           end
  ∧ inserted "completion_tokens" metrics
    = Some match in_completion_tokens metrics with
           | Some x => PNumber x
           | None => PUndefined
           end
  ∧ inserted "api_cost_usd" metrics = Some (PNumber (in_api_cost_usd metrics))
  ∧ inserted "model_name" metrics = Some (PString (in_model_name metrics))
  ∧ inserted "intent_detected" metrics
    = Some (PString (in_intent_detected metrics))
  ∧ inserted "appointment_requested" metrics
    = Some (PBool (in_appointment_requested metrics))
  ∧ inserted "human_handoff_requested" metrics
    = Some (PBool (in_human_handoff_requested metrics))
  ∧ inserted "appointment_booked" metrics
    = Some (PBool match in_appointment_booked metrics with
                  | Some b => b
                  | None => false
                  end)
  ∧ inserted "user_message_length" metrics
    = Some (PNumber (in_user_message_length metrics))
  ∧ inserted "ai_response_length" metrics
    = Some (PNumber (in_ai_response_length metrics))
  ∧ inserted "response_type" metrics
    = Some (PString (in_response_type metrics))
  ∧ (∀ c, (c ∉ Database.insert_columns) -> inserted c metrics = None).
Proof.
  assert (Hbooked :
            inserted "appointment_booked" metrics
            = Some (PBool match in_appointment_booked metrics with
                          | Some b => b
                          | None => false
                          end)).
  { change (inserted "appointment_booked" metrics)
      with (Some (PBool (or_false (in_appointment_booked metrics)))).
    destruct (in_appointment_booked metrics) as [[|]|]; reflexivity. }
  split; [reflexivity|]. split.
  { unfold Database.insert_columns.
    repeat (apply NoDup_cons; split;
            [intros Hin; elim_in Hin; discriminate Hin|]).
    apply NoDup_nil. exact I. }
  repeat (split; [first [reflexivity | exact Hbooked]|]).
  intros c Hc. unfold inserted, Database.insert_columns, Database.insert_values.
  cbn [column_value].
  repeat match goal with
         | |- context [String.eqb c ?k] =>
             destruct (String.eqb_spec c k) as [->|_];
             [exfalso; apply Hc; unfold Database.insert_columns;
              repeat first [apply list_elem_of_here | apply list_elem_of_further]
             |]
         end.
  reflexivity.
Qed.

(** X8.  The [user_satisfaction] of a record is published but not
    stored: the values of the INSERT do not depend on it and no column
    has its name, while the body of the publish request carries it and
    changes when it is set. *)
Theorem user_satisfaction_not_persisted
  (env : Env) (md : MetricsData) (v : option number) :
  Database.insert_values (Tracking.metrics_input (with_user_satisfaction v md))
  = Database.insert_values (Tracking.metrics_input md)
  ∧ ("user_satisfaction"%string ∉ Database.insert_columns)
  ∧ assoc "user_satisfaction"
      (body_fields
         (body (Tracking.track_request env (with_user_satisfaction v md))))
    = json_number <$> v
  ∧ (∀ x, v = Some x -> user_satisfaction md = None ->
          body (Tracking.track_request env (with_user_satisfaction v md))
          ≠ body (Tracking.track_request env md)).
Proof.
  split; [reflexivity|]. split.
  { intros Hin. unfold Database.insert_columns in Hin.
    elim_in Hin; discriminate Hin. }
  split.
  { destruct md as [? cid ? ? ? ? ? pt ct ? ? ? ? ? ab ? ? ?].
    destruct cid, v, pt, ct, ab; reflexivity. }
  intros x -> Hnone Heq.
  destruct md as [? cid ? ? ? us ? pt ct ? ? ? ? ? ab ? ? ?].
  cbn in Hnone. subst us.
  unfold Tracking.track_request, body in Heq.
  apply (f_equal body_fields) in Heq.
  apply (f_equal (assoc "user_satisfaction")) in Heq.
  destruct cid, pt, ct, ab; cbn in Heq;
    unfold json_number in Heq; destruct (is_finite x); discriminate Heq.
Qed.

Lemma user_satisfaction_not_persisted_witness :
  body (Tracking.track_request env_ok (with_user_satisfaction (Some (of_Z 5)) md0))
  ≠ body (Tracking.track_request env_ok md0).
Proof.
  apply (proj2 (proj2 (proj2
           (user_satisfaction_not_persisted env_ok md0 (Some (of_Z 5)))))
           (of_Z 5)); reflexivity.
Defined.

(* ===================================================================== *)
(** ** Further properties of the estimators *)
(* ===================================================================== *)

Lemma tokens_of_Z (a b c : JsString) :
  len a < 2 ^ 53 -> len b < 2 ^ 53 -> len c < 2 ^ 53 ->
  Tracking.systemTokens (Tracking.calculateTokenUsage a b c)
  = of_Z (ceil4 (len a))
  /\ Tracking.userTokens (Tracking.calculateTokenUsage a b c)
     = of_Z (ceil4 (len b))
  /\ Tracking.responseTokens (Tracking.calculateTokenUsage a b c)
     = of_Z (ceil4 (len c))
  /\ Tracking.totalTokens (Tracking.calculateTokenUsage a b c)
     = of_Z (ceil4 (len a) + ceil4 (len b) + ceil4 (len c)).
Proof.
  intros Ha Hb Hc.
  assert (Ha0 : 0 <= len a) by (unfold len; lia).
  assert (Hb0 : 0 <= len b) by (unfold len; lia).
  assert (Hc0 : 0 <= len c) by (unfold len; lia).
  pose proof (ceil4_bounds (len a) ltac:(lia)) as Ba.
  pose proof (ceil4_bounds (len b) ltac:(lia)) as Bb.
  pose proof (ceil4_bounds (len c) ltac:(lia)) as Bc.
  change (2 ^ 51) with 2251799813685248 in *.
  assert (Es : Tracking.systemTokens (Tracking.calculateTokenUsage a b c)
               = of_Z (ceil4 (len a))) by (apply (ceil_quarter (len a)); lia).
  assert (Eu : Tracking.userTokens (Tracking.calculateTokenUsage a b c)
               = of_Z (ceil4 (len b))) by (apply (ceil_quarter (len b)); lia).
  assert (Er : Tracking.responseTokens (Tracking.calculateTokenUsage a b c)
               = of_Z (ceil4 (len c))) by (apply (ceil_quarter (len c)); lia).
  repeat split; try assumption.
  change (Tracking.totalTokens (Tracking.calculateTokenUsage a b c))
    with (add (add (Tracking.systemTokens (Tracking.calculateTokenUsage a b c))
                   (Tracking.userTokens (Tracking.calculateTokenUsage a b c)))
              (Tracking.responseTokens (Tracking.calculateTokenUsage a b c))).
  rewrite Es, Eu, Er.
  rewrite !of_Z_add; try lia; try reflexivity.
  all: change (2 ^ 53) with 9007199254740992; lia.
Qed.

Lemma total_in_range (x y z : Z) :
  0 <= x < 2 ^ 53 -> 0 <= y < 2 ^ 53 -> 0 <= z < 2 ^ 53 ->
  0 <= ceil4 x + ceil4 y + ceil4 z < 2 ^ 53.
Proof.
  change (2 ^ 53) with 9007199254740992.
  unfold ceil4. intros. Z.div_mod_to_equations. lia.
Qed.

(** X11.  The total of [calculateTokenUsage] is a whole number [T] of
    tokens with [L <= 4 T <= L + 9] for the combined length [L] of the
    three strings: rounding each part up costs at most two tokens over
    [ceil (L / 4)]. *)
Theorem totalTokens_bounds (a b c : JsString) :
  len a < 2 ^ 53 -> len b < 2 ^ 53 -> len c < 2 ^ 53 ->
  ∃ T : Z,
    Tracking.totalTokens (Tracking.calculateTokenUsage a b c) = of_Z T
    ∧ (to_Q (Tracking.totalTokens (Tracking.calculateTokenUsage a b c))
       == inject_Z T)%Q
    ∧ len a + len b + len c <= 4 * T <= len a + len b + len c + 9
    ∧ ceil4 (len a + len b + len c) <= T <= ceil4 (len a + len b + len c) + 2.
Proof.
  intros Ha Hb Hc.
  destruct (tokens_of_Z a b c Ha Hb Hc) as (_ & _ & _ & Et).
  exists (ceil4 (len a) + ceil4 (len b) + ceil4 (len c)).
  split; [exact Et|]. split.
  assert (Ha0 : 0 <= len a) by (unfold len; lia).
  assert (Hb0 : 0 <= len b) by (unfold len; lia).
  assert (Hc0 : 0 <= len c) by (unfold len; lia).
  { rewrite Et. apply to_Q_of_Z. apply total_in_range; lia. }
  assert (Ha0 : 0 <= len a) by (unfold len; lia).
  assert (Hb0 : 0 <= len b) by (unfold len; lia).
  assert (Hc0 : 0 <= len c) by (unfold len; lia).
  unfold ceil4. split; Z.div_mod_to_equations; lia.
Qed.

Lemma totalTokens_bounds_witness :
  ∃ T : Z,
    Tracking.totalTokens
      (Tracking.calculateTokenUsage (lit "a") (lit "b") (lit "c")) = of_Z T
    ∧ ceil4 (1 + 1 + 1) + 2 = 3.
Proof.
  destruct (totalTokens_bounds (lit "a") (lit "b") (lit "c"))
    as (T & H & _); try reflexivity.
  exists T. split; [exact H|reflexivity].
Defined.

(** X12.  Longer strings never give fewer tokens: each of the four
    counts of [calculateTokenUsage] is monotone in the lengths. *)
Theorem totalTokens_monotone (a b c a' b' c' : JsString) :
  len a' < 2 ^ 53 -> len b' < 2 ^ 53 -> len c' < 2 ^ 53 ->
  len a <= len a' -> len b <= len b' -> len c <= len c' ->
  (to_Q (Tracking.systemTokens (Tracking.calculateTokenUsage a b c))
   <= to_Q (Tracking.systemTokens (Tracking.calculateTokenUsage a' b' c')))%Q
  ∧ (to_Q (Tracking.userTokens (Tracking.calculateTokenUsage a b c))
     <= to_Q (Tracking.userTokens (Tracking.calculateTokenUsage a' b' c')))%Q
  ∧ (to_Q (Tracking.responseTokens (Tracking.calculateTokenUsage a b c))
     <= to_Q (Tracking.responseTokens (Tracking.calculateTokenUsage a' b' c')))%Q
  ∧ (to_Q (Tracking.totalTokens (Tracking.calculateTokenUsage a b c))
     <= to_Q (Tracking.totalTokens (Tracking.calculateTokenUsage a' b' c')))%Q.
Proof.
  intros Ha Hb Hc La Lb Lc.
  assert (Ha0 : 0 <= len a) by (unfold len; lia).
  assert (Hb0 : 0 <= len b) by (unfold len; lia).
  assert (Hc0 : 0 <= len c) by (unfold len; lia).
  destruct (tokens_of_Z a b c ltac:(lia) ltac:(lia) ltac:(lia))
    as (-> & -> & -> & ->).
  destruct (tokens_of_Z a' b' c' Ha Hb Hc) as (-> & -> & -> & ->).
  pose proof (ceil4_bounds (len a) ltac:(lia)).
  pose proof (ceil4_bounds (len b) ltac:(lia)).
  pose proof (ceil4_bounds (len c) ltac:(lia)).
  pose proof (ceil4_bounds (len a') ltac:(lia)).
  pose proof (ceil4_bounds (len b') ltac:(lia)).
  pose proof (ceil4_bounds (len c') ltac:(lia)).
  pose proof (total_in_range (len a) (len b) (len c)
                ltac:(lia) ltac:(lia) ltac:(lia)).
  pose proof (total_in_range (len a') (len b') (len c')
                ltac:(lia) ltac:(lia) ltac:(lia)).
  change (2 ^ 51) with 2251799813685248 in *.
  change (2 ^ 53) with 9007199254740992 in *.
  assert (M : forall x y, x <= y -> ceil4 x <= ceil4 y)
    by (intros x y Hxy; unfold ceil4; Z.div_mod_to_equations; lia).
  rewrite !to_Q_of_Z
    by (change (2 ^ 53) with 9007199254740992; lia).
  rewrite <- !Zle_Qle.
  pose proof (M _ _ La). pose proof (M _ _ Lb). pose proof (M _ _ Lc).
  repeat split; lia.
Qed.

Lemma totalTokens_monotone_witness :
  (to_Q (Tracking.totalTokens
           (Tracking.calculateTokenUsage (lit "abcd") (lit "") (lit "")))
   <= to_Q (Tracking.totalTokens
              (Tracking.calculateTokenUsage (lit "abcde") (lit "x") (lit ""))))%Q.
Proof.
  apply (totalTokens_monotone (lit "abcd") (lit "") (lit "")
           (lit "abcde") (lit "x") (lit ""));
    vm_compute; first [reflexivity | discriminate].
Defined.

Lemma decimal6_pos (k : Z) :
  1 <= k < 2 ^ 53 ->
  exists (m : positive) (e : Z),
    decimal6 k = S754_finite false m e
    /\ ((1 - u64) * inject_Z k <= F2Q m e * 1000000
        /\ F2Q m e * 1000000 <= (1 + u64) * inject_Z k)%Q.
Proof.
  intros Hk.
  destruct (of_Z_normal k ltac:(lia)) as (M & E & EM & HM & HE & _ & HV).
  unfold decimal6. rewrite EM, of_Z_million.
  destruct (div_correct M 8589934592000000 E (-33) HM eq_refl ltac:(lia))
    as (mz & ez & -> & _ & _ & (Hlo & Hhi) & _).
  exists mz, ez. split; [reflexivity|].
  rewrite F2Q_million, HV in Hlo, Hhi. split; assumption.
Qed.

Lemma millionths_in_range (t k : Z) :
  0 <= t <= 10 ^ 15 ->
  k = (3 * t + 8) / 16 \/ k = (3 * t + 8) / 16 - 1 ->
  k < 2 ^ 52.
Proof.
  change (10 ^ 15) with 1000000000000000.
  change (2 ^ 52) with 4503599627370496.
  intros Ht [-> | ->]; Z.div_mod_to_equations; lia.
Qed.

(** The number of millionths behind an estimate, whichever way a tie
    went. *)
Lemma estimateApiCost_decimal6 (t : Z) :
  0 <= t <= 10 ^ 15 ->
  exists k : Z,
    Tracking.estimateApiCost (of_Z t) = decimal6 k
    /\ 0 <= k < 2 ^ 52
    /\ 16 * k - 8 <= 3 * t <= 16 * k + 8.
Proof.
  intros Ht.
  destruct (Z.eq_dec t 0) as [->|Nt].
  { exists 0. split; [reflexivity|]. split; [|lia].
    change (2 ^ 52) with 4503599627370496. lia. }
  destruct (estimateApiCost_millionths t ltac:(lia)) as (k & Ek & Hn & Hy).
  exists k. split; [exact Ek|].
  assert (Hk : k = (3 * t + 8) / 16 \/ k = (3 * t + 8) / 16 - 1).
  { destruct (Z.eq_dec (t mod 16) 8) as [T|T]; [exact (Hy T)|left; exact (Hn T)]. }
  pose proof (millionths_in_range t k ltac:(lia) Hk) as Hlt.
  assert (Hnt : t mod 16 <> 8 -> k = (3 * t + 8) / 16) by exact Hn.
  clear Ek Hn Hy. split.
  - split; [|exact Hlt].
    destruct Hk as [-> | ->]; [Z.div_mod_to_equations; lia|].
    destruct (Z.eq_dec (t mod 16) 8) as [T|T].
    + Z.div_mod_to_equations; lia.
    + specialize (Hnt T). lia.
  - destruct (Z.eq_dec (t mod 16) 8) as [T|T].
    + destruct Hk as [-> | ->]; Z.div_mod_to_equations; lia.
    + rewrite (Hnt T). Z.div_mod_to_equations; lia.
Qed.

(** Of two token counts the larger one has at least as many millionths. *)
Lemma millionths_monotone (t t' k k' : Z) :
  t < t' ->
  16 * k - 8 <= 3 * t <= 16 * k + 8 ->
  16 * k' - 8 <= 3 * t' <= 16 * k' + 8 ->
  k <= k'.
Proof. lia. Qed.

Lemma exact_cost_millionths (t : Z) :
  (exact_cost t * 1000000 == inject_Z (3 * t) * (1 # 16))%Q.
Proof.
  unfold exact_cost. rewrite inject_Z_mult.
  change (inject_Z 3) with (3 # 1)%Q. field.
Qed.

Lemma cost_value (t : Z) :
  0 <= t <= 10 ^ 15 ->
  exists k : Z,
    Tracking.estimateApiCost (of_Z t) = decimal6 k
    /\ 0 <= k < 2 ^ 52
    /\ 16 * k - 8 <= 3 * t <= 16 * k + 8
    /\ (k = 0 <-> t <= 2)
    /\ (k = 0 -> Tracking.estimateApiCost (of_Z t) = of_Z 0)
    /\ (k <> 0 ->
        exists m e, Tracking.estimateApiCost (of_Z t) = S754_finite false m e)
    /\ ((1 - u64) * inject_Z k
        <= to_Q (Tracking.estimateApiCost (of_Z t)) * 1000000
        /\ to_Q (Tracking.estimateApiCost (of_Z t)) * 1000000
           <= (1 + u64) * inject_Z k)%Q.
Proof.
  intros Ht.
  destruct (estimateApiCost_decimal6 t Ht) as (k & Ek & Hk & Hkt).
  exists k. split; [exact Ek|]. split; [exact Hk|]. split; [exact Hkt|].
  assert (Z0 : k = 0 <-> t <= 2).
  { split; intros H.
    - subst k. lia.
    - destruct (Z.eq_dec t 0) as [->|]; [lia|].
      assert (Ht12 : t = 1 \/ t = 2) by lia.
      destruct (estimateApiCost_millionths t ltac:(lia)) as (k' & Ek' & Hn & _).
      destruct Ht12 as [-> | ->].
      + specialize (Hn ltac:(discriminate)). lia.
      + specialize (Hn ltac:(discriminate)). lia. }
  split; [exact Z0|].
  destruct (Z.eq_dec k 0) as [K0|K0].
  - subst k. split; [intros _; exact Ek|]. split; [congruence|].
    rewrite Ek. change (to_Q (decimal6 0)) with 0%Q.
    change (inject_Z 0) with 0%Q. split; lra.
  - destruct (decimal6_pos k) as (m & e & Em & Hb).
    { change (2 ^ 53) with 9007199254740992.
      change (2 ^ 52) with 4503599627370496 in Hk. lia. }
    split; [congruence|]. split.
    + intros _. exists m, e. congruence.
    + rewrite Ek, Em. exact Hb.
Qed.

(** X13.  The estimate of a whole number of tokens is zero exactly up
    to two tokens. *)
Theorem estimateApiCost_zero_iff (t : Z) :
  0 <= t <= 10 ^ 15 ->
  Tracking.estimateApiCost (of_Z t) = of_Z 0 <-> t <= 2.
Proof.
  intros Ht.
  destruct (cost_value t Ht) as (k & _ & _ & _ & Z0 & Hz & Hnz & _).
  split; intros H.
  - apply Z0. destruct (Z.eq_dec k 0) as [K|K]; [exact K|].
    destruct (Hnz K) as (m & e & E). rewrite E in H. discriminate.
  - apply Hz, Z0, H.
Qed.

Lemma estimateApiCost_zero_iff_witness :
  Tracking.estimateApiCost (of_Z 2) = of_Z 0 <-> 2 <= 2.
Proof. apply (estimateApiCost_zero_iff 2). vm_compute. split; discriminate. Defined.

(** X14.  More tokens never cost less, and no estimate is negative. *)
Theorem estimateApiCost_monotone (t t' : Z) :
  0 <= t -> t <= t' -> t' <= 10 ^ 15 ->
  (0 <= to_Q (Tracking.estimateApiCost (of_Z t)))%Q
  /\ (to_Q (Tracking.estimateApiCost (of_Z t))
      <= to_Q (Tracking.estimateApiCost (of_Z t')))%Q.
Proof.
  intros H0 Hle Hmax.
  destruct (cost_value t ltac:(lia)) as (k & Ek & Hk & Hkt & _ & _ & _ & Hlo & Hhi).
  assert (Hpos : (0 <= to_Q (Tracking.estimateApiCost (of_Z t)))%Q).
  { assert (Hq : (0 <= inject_Z k)%Q)
      by (change 0%Q with (inject_Z 0); rewrite <- Zle_Qle; lia).
    unfold u64 in Hlo. nra. }
  split; [exact Hpos|].
  destruct (Z.eq_dec t t') as [<-|Ne]; [lra|].
  destruct (cost_value t' ltac:(lia))
    as (k' & Ek' & Hk' & Hkt' & _ & _ & _ & Hlo' & Hhi').
  pose proof (millionths_monotone t t' k k' ltac:(lia) Hkt Hkt') as Hkk.
  destruct (Z.eq_dec k k') as [<-|Nk].
  - (* the same number of millionths: the same Number *)
    rewrite Ek, Ek'. lra.
  - assert (Hs : k + 1 <= k') by lia.
    assert (Hq : (inject_Z k + 1 <= inject_Z k')%Q).
    { change 1%Q with (inject_Z 1). rewrite <- inject_Z_plus, <- Zle_Qle. lia. }
    assert (Hq0 : (0 <= inject_Z k)%Q)
      by (change 0%Q with (inject_Z 0); rewrite <- Zle_Qle; lia).
    assert (Hqm : (inject_Z k <= 4503599627370495)%Q).
    { change 4503599627370495%Q with (inject_Z 4503599627370495).
      rewrite <- Zle_Qle. change (2 ^ 52) with 4503599627370496 in Hk. lia. }
    unfold u64 in *. lra.
Qed.

Lemma estimateApiCost_monotone_witness :
  (to_Q (Tracking.estimateApiCost (of_Z 8))
   <= to_Q (Tracking.estimateApiCost (of_Z 9)))%Q.
Proof.
  apply (estimateApiCost_monotone 8 9); vm_compute; discriminate.
Defined.

(** X15.  The estimate is within 0.53 millionths of a dollar of the
    exact cost. *)
Theorem estimateApiCost_accuracy (t : Z) :
  0 <= t <= 10 ^ 15 ->
  (exact_cost t * 1000000 - (53 # 100)
   <= to_Q (Tracking.estimateApiCost (of_Z t)) * 1000000
   /\ to_Q (Tracking.estimateApiCost (of_Z t)) * 1000000
      <= exact_cost t * 1000000 + (53 # 100))%Q.
Proof.
  intros Ht.
  destruct (cost_value t Ht) as (k & _ & Hk & Hkt & _ & _ & _ & Hlo & Hhi).
  rewrite exact_cost_millionths.
  assert (Hq0 : (0 <= inject_Z k)%Q)
    by (change 0%Q with (inject_Z 0); rewrite <- Zle_Qle; lia).
  assert (Hqm : (inject_Z k <= 4503599627370496)%Q).
  { change 4503599627370496%Q with (inject_Z 4503599627370496).
    rewrite <- Zle_Qle. change (2 ^ 52) with 4503599627370496 in Hk. lia. }
  assert (Hqmax : (inject_Z k <= 187500000000001)%Q).
  { change 187500000000001%Q with (inject_Z 187500000000001).
    rewrite <- Zle_Qle. change (10 ^ 15) with 1000000000000000 in Ht. lia. }
  assert (H1 : (16 * inject_Z k <= inject_Z (3 * t) + 8)%Q).
  { change 16%Q with (inject_Z 16). change 8%Q with (inject_Z 8).
    rewrite <- inject_Z_mult, <- inject_Z_plus, <- Zle_Qle. lia. }
  assert (H2 : (inject_Z (3 * t) <= 16 * inject_Z k + 8)%Q).
  { change 16%Q with (inject_Z 16). change 8%Q with (inject_Z 8).
    rewrite <- inject_Z_mult, <- inject_Z_plus, <- Zle_Qle. lia. }
  unfold u64 in *. split; lra.
Qed.

Lemma estimateApiCost_accuracy_witness :
  (to_Q (Tracking.estimateApiCost (of_Z 296)) * 1000000
   <= exact_cost 296 * 1000000 + (53 # 100))%Q.
Proof.
  apply (estimateApiCost_accuracy 296). vm_compute. split; discriminate.
Defined.

(** X16.  NaN, the infinities and the zeros of either sign come back
    from [estimateApiCost] unchanged. *)
Theorem estimateApiCost_special (x : number) :
  (forall s m e, x <> S754_finite s m e) ->
  Tracking.estimateApiCost x = x.
Proof.
  intros H. destruct x as [[|]|[|]| |s m e]; try reflexivity.
  exfalso. exact (H s m e eq_refl).
Qed.

Lemma estimateApiCost_special_witness :
  Tracking.estimateApiCost S754_nan = S754_nan.
Proof. apply (estimateApiCost_special S754_nan). intros; discriminate. Defined.

(** X17.  Pricing the total of [calculateTokenUsage]: the estimate is a
    whole number [k] of millionths of a dollar, the nearest to 3/16 of
    the token total, within [3 L - 32 <= 64 k <= 3 L + 59] for the
    combined length [L], and zero exactly when the total is at most two
    tokens. *)
Theorem cost_of_token_usage (a b c : JsString) :
  len a + len b + len c <= 10 ^ 15 ->
  exists T k : Z,
    Tracking.totalTokens (Tracking.calculateTokenUsage a b c) = of_Z T
    /\ T = ceil4 (len a) + ceil4 (len b) + ceil4 (len c)
    /\ Tracking.estimateApiCost
         (Tracking.totalTokens (Tracking.calculateTokenUsage a b c))
       = decimal6 k
    /\ (T mod 16 <> 8 -> k = (3 * T + 8) / 16)
    /\ 3 * (len a + len b + len c) - 32 <= 64 * k
       <= 3 * (len a + len b + len c) + 59
    /\ (k = 0 <-> T <= 2).
Proof.
  intros HL.
  assert (Ha0 : 0 <= len a) by (unfold len; lia).
  assert (Hb0 : 0 <= len b) by (unfold len; lia).
  assert (Hc0 : 0 <= len c) by (unfold len; lia).
  change (10 ^ 15) with 1000000000000000 in HL.
  destruct (tokens_of_Z a b c) as (_ & _ & _ & Et);
    try (change (2 ^ 53) with 9007199254740992; lia).
  set (T := ceil4 (len a) + ceil4 (len b) + ceil4 (len c)) in *.
  assert (HT : 0 <= T <= 10 ^ 15).
  { change (10 ^ 15) with 1000000000000000.
    subst T. unfold ceil4. Z.div_mod_to_equations. lia. }
  assert (HTL : len a + len b + len c <= 4 * T <= len a + len b + len c + 9).
  { subst T. unfold ceil4. Z.div_mod_to_equations. lia. }
  destruct (cost_value T HT) as (k & Ek & Hk & Hkt & Z0 & _).
  exists T, k. split; [exact Et|]. split; [reflexivity|].
  rewrite Et. split; [exact Ek|]. split.
  - (* [k] is within a half of 3T/16, which is no tie *)
    intros Hn. clear Ek Z0 Et HTL. clearbody T.
    Z.div_mod_to_equations. lia.
  - split; [lia|exact Z0].
Qed.

Lemma cost_of_token_usage_witness :
  exists T k : Z,
    Tracking.estimateApiCost
      (Tracking.totalTokens
         (Tracking.calculateTokenUsage (lit "abcd") (lit "abcde") (lit "")))
    = decimal6 k
    /\ T = 3.
Proof.
  destruct (cost_of_token_usage (lit "abcd") (lit "abcde") (lit ""))
    as (T & k & _ & HT & Hk & _).
  - vm_compute. discriminate.
  - exists T, k. split; [exact Hk|exact HT].
Defined.

(* ===================================================================== *)
(** ** The start script *)
(* ===================================================================== *)

Lemma commands_execute (h : StartScript.Host) :
  StartScript.commands (StartScript.execute h).1
  = if negb (StartScript.has_python3 h) then []
    else (if StartScript.has_venv_dir h then [] else [StartScript.CreateVenv])
         ++ StartScript.Activate
            :: match StartScript.activate_ends h with
               | StartScript.Returned _ =>
                   [StartScript.PipInstall; StartScript.MkdirMetrics;
                    StartScript.RunApp]
               | StartScript.Exited _ => []
               end.
Proof.
  destruct h as [[|] [|] vs [a|a] ps ms aps]; reflexivity.
Qed.

Lemma status_execute (h : StartScript.Host) :
  (StartScript.execute h).2
  = if negb (StartScript.has_python3 h) then 1
    else match StartScript.activate_ends h with
         | StartScript.Returned _ => StartScript.app_status h
         | StartScript.Exited n => n
         end.
Proof.
  destruct h as [[|] [|] vs [a|a] ps ms aps]; reflexivity.
Qed.


(** X18.  Without [python3] the script prints three lines, runs
    nothing and exits with status 1. *)
Theorem start_without_python (h : StartScript.Host) :
  StartScript.has_python3 h = false ->
  StartScript.commands (StartScript.execute h).1 = []
  /\ (StartScript.execute h).2 = 1
  /\ length (StartScript.execute h).1 = 3%nat.
Proof.
  intros H. unfold StartScript.execute, StartScript.start.
  destruct h as [py vd vs ac ps ms aps]. cbn in H. subst py.
  repeat split.
Qed.

Lemma start_without_python_witness :
  (StartScript.execute StartScript.bare_host).2 = 1.
Proof.
  apply (start_without_python StartScript.bare_host). reflexivity.
Defined.

(** X19.  With [python3] present and an activation that returns, every
    set-up step and then the application are run, whatever the statuses
    of the steps, and the script's status is the application's. *)
Theorem start_runs_app (h : StartScript.Host) (n : Z) :
  StartScript.has_python3 h = true ->
  StartScript.activate_ends h = StartScript.Returned n ->
  StartScript.commands (StartScript.execute h).1
  = StartScript.setup h ++ [StartScript.RunApp]
  /\ (StartScript.execute h).2 = StartScript.app_status h.
Proof.
  intros Hp Ha. unfold StartScript.execute, StartScript.start, StartScript.setup.
  destruct h as [py vd vs ac ps ms aps]. cbn in Hp, Ha. subst py ac.
  destruct vd; split; reflexivity.
Qed.

Lemma start_runs_app_witness :
  (StartScript.execute StartScript.fresh_host).2 = 0
  /\ StartScript.pip_status StartScript.fresh_host = 1.
Proof.
  split; [|reflexivity].
  apply (proj2 (start_runs_app StartScript.fresh_host 0 eq_refl eq_refl)).
Defined.

(** X20.  The virtual environment is created exactly when Python is
    there and the directory is not, and then before anything else is
    run. *)
Theorem venv_created_iff_absent (h : StartScript.Host) :
  (StartScript.CreateVenv ∈ StartScript.commands (StartScript.execute h).1
   <-> StartScript.has_python3 h = true
       /\ StartScript.has_venv_dir h = false)
  /\ (StartScript.CreateVenv ∈ StartScript.commands (StartScript.execute h).1
      -> head (StartScript.commands (StartScript.execute h).1)
         = Some StartScript.CreateVenv).
Proof.
  rewrite commands_execute.
  destruct h as [[|] [|] vs [a|a] ps ms aps]; cbn;
    rewrite ?elem_of_cons, ?elem_of_nil; intuition congruence.
Qed.

(** X21.  The application is started at most once and nothing is run
    after it; the script ends with status 1, the status of an [exit] in
    the activation file, or the application's. *)
Theorem app_runs_last (h : StartScript.Host) :
  (StartScript.RunApp ∈ StartScript.commands (StartScript.execute h).1
   -> exists before,
        StartScript.commands (StartScript.execute h).1
        = before ++ [StartScript.RunApp]
        /\ (StartScript.RunApp ∉ before)
        /\ (StartScript.execute h).2 = StartScript.app_status h)
  /\ (StartScript.RunApp ∉ StartScript.commands (StartScript.execute h).1
      -> StartScript.has_python3 h = false /\ (StartScript.execute h).2 = 1
         \/ StartScript.activate_ends h
            = StartScript.Exited (StartScript.execute h).2).
Proof.
  rewrite commands_execute, status_execute.
  destruct (StartScript.has_python3 h); cbn [negb].
  2:{ split; [intros H; apply elem_of_nil in H; contradiction|].
      intros _. left. split; reflexivity. }
  destruct (StartScript.activate_ends h) as [n|n] eqn:Ha.
  - split.
    + intros _. exists (StartScript.setup h). split.
      * unfold StartScript.setup. rewrite <- app_assoc. reflexivity.
      * split; [|reflexivity]. unfold StartScript.setup.
        destruct (StartScript.has_venv_dir h); cbn;
          rewrite ?elem_of_cons, ?elem_of_nil; intuition congruence.
    + intros H. exfalso. apply H.
      rewrite elem_of_app. right.
      rewrite ?elem_of_cons. intuition congruence.
  - split; [|intros _; right; reflexivity].
    intros H. exfalso. revert H.
    destruct (StartScript.has_venv_dir h); cbn;
      rewrite ?elem_of_cons, ?elem_of_nil; intuition congruence.
Qed.
